(** * MeerK40t: the Lhystudios controller window, the GUI start-up and PointNode

    A shallow embedding of
    - [meerk40t/gui/lhystudioscontrollergui.py] (class [LhystudiosControllerGui]),
    - [meerk40t/gui/wxmeerk40t.py] (the stop and pause panels, [wxMeerK40t.__init__]),
    - [meerk40t/core/node/elem_point.py] (class [PointNode]).

    Python integers are [Z], Python strings are [string], attributes that may
    be [None] or missing are [option]s, and a method that can raise is a
    state transformer returning an [Outcome]: the mutations done before a
    [raise] stay in the state, as they do in Python. *)

From Stdlib Require Import ZArith List String Ascii Bool Lia DecimalString.
Import ListNotations.
Open Scope string_scope.
Open Scope Z_scope.

(** ** Python values and exceptions *)

Inductive Exn : Type :=
| AttributeError
| ConnectionRefusedError
| TypeError
| IndexError
| CommandSyntaxError.

Definition Exn_eqb (a b : Exn) : bool :=
  match a, b with
  | AttributeError, AttributeError
  | ConnectionRefusedError, ConnectionRefusedError
  | TypeError, TypeError
  | IndexError, IndexError
  | CommandSyntaxError, CommandSyntaxError => true
  | _, _ => false
  end.

Inductive Outcome (A : Type) : Type :=
| Returned (a : A)
| Raised (e : Exn).
Arguments Returned {A} a.
Arguments Raised {A} e.

(** A method body over a mutable world [W]. *)
Definition Py (W A : Type) : Type := W -> W * Outcome A.

Definition ret {W A} (a : A) : Py W A := fun w => (w, Returned a).

Definition bind {W A B} (c : Py W A) (k : A -> Py W B) : Py W B :=
  fun w =>
    match c w with
    | (w', Returned a) => k a w'
    | (w', Raised e) => (w', Raised e)
    end.

Definition raise {W A} (e : Exn) : Py W A := fun w => (w, Raised e).

(** [try: c  except e: h] *)
Definition try_except {W A} (c : Py W A) (e : Exn) (h : Py W A) : Py W A :=
  fun w =>
    match c w with
    | (w', Raised e') => if Exn_eqb e' e then h w' else (w', Raised e')
    | r => r
    end.

Definition modify {W} (f : W -> W) : Py W unit := fun w => (f w, Returned tt).

Declare Scope py_scope.
Delimit Scope py_scope with py.
Notation "x <- c ;; k" := (bind c (fun x => k))
  (at level 61, c at next level, right associativity) : py_scope.
Notation "c ;; k" := (bind c (fun _ => k))
  (at level 61, right associativity) : py_scope.
Open Scope py_scope.

(** [str(n)] for a Python int. *)
Definition str (n : Z) : string := NilZero.string_of_int (Z.to_int n).

(** A console line: the command text followed by a newline. *)
Definition line (s : string) : string := s ++ String "010"%char EmptyString.

(** [x in (a, b, ...)] for optional strings ([None] is Python's [None]). *)
Definition opt_string_eqb (a b : option string) : bool :=
  match a, b with
  | Some x, Some y => String.eqb x y
  | None, None => true
  | _, _ => false
  end.

Definition py_in (x : option string) (t : list (option string)) : bool :=
  existsb (opt_string_eqb x) t.

(** ** The thread states of the kernel *)

(** Modelled from the spec: the constants [STATE_INITIALIZE] ... [STATE_END]
    are imported from [meerk40t.kernel], which is not among the sources; the
    specification's data model lists them as the eight values of the
    enumerated [ControlState].  [STATE_OTHER] stands for any value a
    notification may carry that equals none of the eight. *)
Inductive ThreadState : Type :=
| STATE_INITIALIZE
| STATE_IDLE
| STATE_BUSY
| STATE_WAIT
| STATE_PAUSE
| STATE_ACTIVE
| STATE_TERMINATE
| STATE_END
| STATE_OTHER (code : Z).

Definition ThreadState_eqb (a b : ThreadState) : bool :=
  match a, b with
  | STATE_INITIALIZE, STATE_INITIALIZE
  | STATE_IDLE, STATE_IDLE
  | STATE_BUSY, STATE_BUSY
  | STATE_WAIT, STATE_WAIT
  | STATE_PAUSE, STATE_PAUSE
  | STATE_ACTIVE, STATE_ACTIVE
  | STATE_TERMINATE, STATE_TERMINATE
  | STATE_END, STATE_END => true
  | STATE_OTHER m, STATE_OTHER n => Z.eqb m n
  | _, _ => false
  end.

(** ** The context a window talks to *)

(** The window reaches the kernel only through [self.context]: calling it
    with a console line, asking for the last signal of a topic, and asking the
    kernel for the text of a thread state.  [last_signal] gives the tuple of
    the arguments last sent on the topic, or [None]. *)
Class Context (K : Type) : Type := {
  context_call : string -> Py K unit;
  last_signal : string -> K -> option (list string);
  get_text_thread_state : ThreadState -> string;
}.

(** [wx.GetTranslation], bound to [_] in both GUI modules. *)
Class Translation : Type := { tr : string -> string }.

(** ** Widgets *)

Inductive Icon : Type :=
| icons8_connected_50
| icons8_disconnected_50
| icons8_emergency_stop_button_50
| icons8_laser_beam_hazard_50
| icons8_pause_50
| icons8_play_50.

Record Button : Type := {
  BackgroundColour : string;
  Label : string;
  Bitmap : Icon;
  Enabled : bool;
}.

Definition SetBackgroundColour (c : string) (b : Button) : Button :=
  {| BackgroundColour := c; Label := Label b; Bitmap := Bitmap b; Enabled := Enabled b |}.
Definition SetLabel (l : string) (b : Button) : Button :=
  {| BackgroundColour := BackgroundColour b; Label := l; Bitmap := Bitmap b; Enabled := Enabled b |}.
Definition SetBitmap (i : Icon) (b : Button) : Button :=
  {| BackgroundColour := BackgroundColour b; Label := Label b; Bitmap := i; Enabled := Enabled b |}.
Definition Enable (e : bool) (b : Button) : Button :=
  {| BackgroundColour := BackgroundColour b; Label := Label b; Bitmap := Bitmap b; Enabled := e |}.

Record Gauge : Type := { Range : Z; Value : Z }.

(** What an [EVT_BUTTON] handler bound to the controller button does when
    it runs: the wxGlade stub, or a closure [f] sending console lines. *)
Inductive Handler : Type :=
| on_button_start_controller
| send (lines : list string).

(** ** LhystudiosControllerGui *)

(** The attributes the handlers below read or write.  [control_bindings]
    is the event table of [button_controller_control], newest binding first:
    [Bind] adds an entry and the newest one is the one that runs.
    [text_buffer_length] and [gauge_buffer] are [None] when the attribute
    does not exist on the window ([__init__] does not create them). *)
Record Gui : Type := {
  buffer_max : Z;
  last_control_state : option ThreadState;
  gui_update : bool;
  button_device_connect : Button;
  button_controller_control : Button;
  control_bindings : list Handler;
  text_controller_status : option string;
  text_buffer_length : option string;
  gauge_buffer : option Gauge;
  dialogs : list string;
}.

Definition set_buffer_max (v : Z) (g : Gui) : Gui :=
  {| buffer_max := v; last_control_state := last_control_state g;
     gui_update := gui_update g; button_device_connect := button_device_connect g;
     button_controller_control := button_controller_control g;
     control_bindings := control_bindings g;
     text_controller_status := text_controller_status g;
     text_buffer_length := text_buffer_length g; gauge_buffer := gauge_buffer g;
     dialogs := dialogs g |}.

Definition set_last_control_state (s : option ThreadState) (g : Gui) : Gui :=
  {| buffer_max := buffer_max g; last_control_state := s;
     gui_update := gui_update g; button_device_connect := button_device_connect g;
     button_controller_control := button_controller_control g;
     control_bindings := control_bindings g;
     text_controller_status := text_controller_status g;
     text_buffer_length := text_buffer_length g; gauge_buffer := gauge_buffer g;
     dialogs := dialogs g |}.

Definition set_gui_update (b : bool) (g : Gui) : Gui :=
  {| buffer_max := buffer_max g; last_control_state := last_control_state g;
     gui_update := b; button_device_connect := button_device_connect g;
     button_controller_control := button_controller_control g;
     control_bindings := control_bindings g;
     text_controller_status := text_controller_status g;
     text_buffer_length := text_buffer_length g; gauge_buffer := gauge_buffer g;
     dialogs := dialogs g |}.

Definition with_device_connect (f : Button -> Button) (g : Gui) : Gui :=
  {| buffer_max := buffer_max g; last_control_state := last_control_state g;
     gui_update := gui_update g;
     button_device_connect := f (button_device_connect g);
     button_controller_control := button_controller_control g;
     control_bindings := control_bindings g;
     text_controller_status := text_controller_status g;
     text_buffer_length := text_buffer_length g; gauge_buffer := gauge_buffer g;
     dialogs := dialogs g |}.

Definition with_controller_control (f : Button -> Button) (g : Gui) : Gui :=
  {| buffer_max := buffer_max g; last_control_state := last_control_state g;
     gui_update := gui_update g; button_device_connect := button_device_connect g;
     button_controller_control := f (button_controller_control g);
     control_bindings := control_bindings g;
     text_controller_status := text_controller_status g;
     text_buffer_length := text_buffer_length g; gauge_buffer := gauge_buffer g;
     dialogs := dialogs g |}.

(** [self.Bind(wx.EVT_BUTTON, f, button)] for the controller button. *)
Definition Bind_control (h : Handler) (g : Gui) : Gui :=
  {| buffer_max := buffer_max g; last_control_state := last_control_state g;
     gui_update := gui_update g; button_device_connect := button_device_connect g;
     button_controller_control := button_controller_control g;
     control_bindings := h :: control_bindings g;
     text_controller_status := text_controller_status g;
     text_buffer_length := text_buffer_length g; gauge_buffer := gauge_buffer g;
     dialogs := dialogs g |}.

Definition set_text_controller_status (s : string) (g : Gui) : Gui :=
  {| buffer_max := buffer_max g; last_control_state := last_control_state g;
     gui_update := gui_update g; button_device_connect := button_device_connect g;
     button_controller_control := button_controller_control g;
     control_bindings := control_bindings g;
     text_controller_status := Some s;
     text_buffer_length := text_buffer_length g; gauge_buffer := gauge_buffer g;
     dialogs := dialogs g |}.

Definition set_text_buffer_length (s : string) (g : Gui) : Gui :=
  {| buffer_max := buffer_max g; last_control_state := last_control_state g;
     gui_update := gui_update g; button_device_connect := button_device_connect g;
     button_controller_control := button_controller_control g;
     control_bindings := control_bindings g;
     text_controller_status := text_controller_status g;
     text_buffer_length := Some s; gauge_buffer := gauge_buffer g;
     dialogs := dialogs g |}.

Definition set_gauge_buffer (q : Gauge) (g : Gui) : Gui :=
  {| buffer_max := buffer_max g; last_control_state := last_control_state g;
     gui_update := gui_update g; button_device_connect := button_device_connect g;
     button_controller_control := button_controller_control g;
     control_bindings := control_bindings g;
     text_controller_status := text_controller_status g;
     text_buffer_length := text_buffer_length g; gauge_buffer := Some q;
     dialogs := dialogs g |}.

(** [wx.MessageDialog(...).ShowModal()]: the message is shown. *)
Definition ShowModal (message : string) (g : Gui) : Gui :=
  {| buffer_max := buffer_max g; last_control_state := last_control_state g;
     gui_update := gui_update g; button_device_connect := button_device_connect g;
     button_controller_control := button_controller_control g;
     control_bindings := control_bindings g;
     text_controller_status := text_controller_status g;
     text_buffer_length := text_buffer_length g; gauge_buffer := gauge_buffer g;
     dialogs := message :: dialogs g |}.

(** The window as [__init__] and [__set_properties] leave it. *)
Definition gui_init : Gui :=
  {| buffer_max := 1;
     last_control_state := None;
     gui_update := true;
     button_device_connect :=
       {| BackgroundColour := "#66ff66"; Label := "Connection";
          Bitmap := icons8_connected_50; Enabled := true |};
     button_controller_control :=
       {| BackgroundColour := "#66ff66"; Label := "Start Controller";
          Bitmap := icons8_play_50; Enabled := true |};
     control_bindings := [on_button_start_controller];
     text_controller_status := Some "";
     text_buffer_length := None;
     gauge_buffer := None;
     dialogs := [] |}.

(** [window_close] (the part that touches the window's own attributes). *)
Definition window_close (g : Gui) : Gui := set_gui_update false g.

(** [on_buffer_update(self, origin, value, *args)] *)
Definition on_buffer_update (value : Z) : Py Gui unit :=
  fun g =>
    if gui_update g then
      let g1 := if value >? buffer_max g then set_buffer_max value g else g in
      match text_buffer_length g1 with
      | None => (g1, Raised AttributeError)
      | Some _ =>
          let g2 := set_text_buffer_length (str value) g1 in
          match gauge_buffer g2 with
          | None => (g2, Raised AttributeError)
          | Some q =>
              let q1 := {| Range := buffer_max g2; Value := Value q |} in
              let q2 := {| Range := Range q1; Value := Z.min value (Range q1) |} in
              (set_gauge_buffer q2 g2, Returned tt)
          end
      end
    else (g, Returned tt).

(** The window after the buffer signal was delivered once for each value of
    [values], in order.  Every delivery is a call of its own: what one call
    raises does not reach the next. *)
Fixpoint buffer_updates (values : list Z) (g : Gui) : Gui :=
  match values with
  | [] => g
  | v :: rest => buffer_updates rest (fst (on_buffer_update v g))
  end.

(** The largest value of a non-empty sequence [v :: rest]. *)
Definition max_seen (v : Z) (rest : list Z) : Z := fold_left Z.max rest v.

(** Attribute updates are written in program order: [g |> f |> h]. *)
Notation "x |> f" := (f x) (at level 45, left associativity, only parsing).

Section Window.
Context {K : Type} `{Ctx : Context K} `{Tr : Translation}.

(** The window together with the kernel behind its context. *)
Definition World : Type := (Gui * K)%type.

Definition gui_do (f : Gui -> Gui) : Py World unit :=
  modify (fun w => (f (fst w), snd w)).

(** [self.context(text)] *)
Definition context (text : string) : Py World unit :=
  fun w =>
    match context_call text (snd w) with
    | (k, r) => ((fst w, k), r)
    end.

(** [self.context.last_signal(topic)[0]] *)
Definition last_signal_0 (topic : string) : Py World string :=
  fun w =>
    match last_signal topic (snd w) with
    | None => (w, Raised TypeError)
    | Some [] => (w, Raised IndexError)
    | Some (x :: _) => (w, Returned x)
    end.

(** [on_connection_state_change(self, origin, state)] *)
Definition on_connection_state_change (state : string) : Py World unit :=
  if ((state =? "STATE_CONNECTION_FAILED") || (state =? "STATE_DRIVER_NO_BACKEND"))%string
  then
    gui_do (with_device_connect (SetBackgroundColour "#dfdf00")) ;;
    status <- last_signal_0 "pipe;usb_status" ;;
    gui_do (with_device_connect (SetLabel status)) ;;
    gui_do (with_device_connect (SetBitmap icons8_disconnected_50)) ;;
    gui_do (with_device_connect (Enable true))
  else if ((state =? "STATE_UNINITIALIZED") || (state =? "STATE_USB_DISCONNECTED"))%string
  then
    gui_do (with_device_connect (SetBackgroundColour "#ffff00")) ;;
    gui_do (with_device_connect (SetLabel (tr "Connect"))) ;;
    gui_do (with_device_connect (SetBitmap icons8_connected_50)) ;;
    gui_do (with_device_connect (Enable true))
  else if (state =? "STATE_USB_SET_DISCONNECTING")%string
  then
    gui_do (with_device_connect (SetBackgroundColour "#ffff00")) ;;
    gui_do (with_device_connect (SetLabel (tr "Disconnecting..."))) ;;
    gui_do (with_device_connect (SetBitmap icons8_disconnected_50)) ;;
    gui_do (with_device_connect (Enable false))
  else if ((state =? "STATE_USB_CONNECTED") || (state =? "STATE_CONNECTED"))%string
  then
    gui_do (with_device_connect (SetBackgroundColour "#00ff00")) ;;
    gui_do (with_device_connect (SetLabel (tr "Disconnect"))) ;;
    gui_do (with_device_connect (SetBitmap icons8_connected_50)) ;;
    gui_do (with_device_connect (Enable true))
  else if (state =? "STATE_CONNECTING")%string
  then
    gui_do (with_device_connect (SetBackgroundColour "#ffff00")) ;;
    gui_do (with_device_connect (SetLabel (tr "Connecting..."))) ;;
    gui_do (with_device_connect (SetBitmap icons8_connected_50)) ;;
    gui_do (with_device_connect (Enable false))
  else ret tt.

(** The states in which the connection button asks for a connection, and
    those in which it asks for a disconnection. *)
Definition connect_states : list (option string) :=
  [ Some "STATE_USB_DISCONNECTED"; Some "STATE_UNINITIALIZED";
    Some "STATE_CONNECTION_FAILED"; Some "STATE_DRIVER_MOCK"; None ].

Definition disconnect_states : list (option string) :=
  [ Some "STATE_CONNECTED"; Some "STATE_USB_CONNECTED" ].

(** [state = last_signal("pipe;state")], then [state = state[0]] when it
    is a tuple. *)
Definition last_pipe_state : Py World (option string) :=
  fun w =>
    match last_signal "pipe;state" (snd w) with
    | None => (w, Returned None)
    | Some [] => (w, Raised IndexError)
    | Some (x :: _) => (w, Returned (Some x))
    end.

(** [on_button_start_usb(self, event)] *)
Definition on_button_start_usb : Py World unit :=
  state <- last_pipe_state ;;
  if py_in state connect_states then
    try_except
      (context (line "usb_connect"))
      ConnectionRefusedError
      (gui_do (ShowModal
         (tr "Connection Refused. See USB Log for detailed information.")))
  else if py_in state disconnect_states then
    context (line "usb_disconnect")
  else ret tt.

(** [on_control_state(self, origin, state)] *)
Definition on_control_state (state : ThreadState) (g : Gui) : Gui :=
  if match last_control_state g with
     | Some last => ThreadState_eqb last state
     | None => false
     end
  then g
  else
    let g := set_last_control_state (Some state) g in
    match text_controller_status g with
    | None => g
    | Some _ =>
        let value := get_text_thread_state (K := K) state in
        let g := set_text_controller_status value g in
        match state with
        | STATE_INITIALIZE | STATE_END | STATE_IDLE =>
            g |> Bind_control (send [line "start"; line "hold"])
              |> with_controller_control (SetBackgroundColour "#009900")
              |> with_controller_control (SetLabel (tr "Hold Controller"))
              |> with_controller_control (SetBitmap icons8_play_50)
              |> with_controller_control (Enable true)
        | STATE_BUSY =>
            g |> with_controller_control (SetBackgroundColour "#00dd00")
              |> with_controller_control (SetLabel (tr "LOCKED"))
              |> with_controller_control (SetBitmap icons8_play_50)
              |> with_controller_control (Enable false)
        | STATE_WAIT =>
            g |> Bind_control (send [line "control Wait Abort"])
              |> with_controller_control (SetBackgroundColour "#dddd00")
              |> with_controller_control (SetLabel (tr "Force Continue"))
              |> with_controller_control (SetBitmap icons8_laser_beam_hazard_50)
              |> with_controller_control (Enable true)
        | STATE_PAUSE =>
            g |> Bind_control (send [line "resume"])
              |> with_controller_control (SetBackgroundColour "#00dd00")
              |> with_controller_control (SetLabel (tr "Resume Controller"))
              |> with_controller_control (SetBitmap icons8_play_50)
              |> with_controller_control (Enable true)
        | STATE_ACTIVE =>
            g |> Bind_control (send [line "hold"])
              |> with_controller_control (SetBackgroundColour "#00ff00")
              |> with_controller_control (SetLabel (tr "Pause Controller"))
              |> with_controller_control (SetBitmap icons8_pause_50)
              |> with_controller_control (Enable true)
        | STATE_TERMINATE =>
            g |> Bind_control (send [line "abort"])
              |> with_controller_control (SetBackgroundColour "#00ffff")
              |> with_controller_control (SetLabel (tr "Manual Reset"))
              |> with_controller_control (SetBitmap icons8_emergency_stop_button_50)
              |> with_controller_control (Enable true)
        | STATE_OTHER _ => g
        end
    end.

(** The window after the control-state signal was delivered once for each
    state of [states], in order. *)
Definition control_states (states : list ThreadState) (g : Gui) : Gui :=
  fold_left (fun g s => on_control_state s g) states g.

(** While the last control state seen is [STATE_BUSY], the controller
    button is disabled and labelled as locked (on a window whose status text
    exists). *)
Definition busy_locked (g : Gui) : Prop :=
  text_controller_status g <> None /\
  (last_control_state g = Some STATE_BUSY ->
   Enabled (button_controller_control g) = false /\
   Label (button_controller_control g) = tr "LOCKED").

(** The closures [f] bound by [on_control_state] send their lines one
    after the other; the wxGlade stub only prints and skips. *)
Fixpoint send_lines (lines : list string) : Py World unit :=
  match lines with
  | [] => ret tt
  | l :: rest => context l ;; send_lines rest
  end.

Definition run_handler (h : Handler) : Py World unit :=
  match h with
  | on_button_start_controller => ret tt
  | send lines => send_lines lines
  end.

(** A click on [button_controller_control]: a disabled button emits no
    event; otherwise the newest binding runs. *)
Definition click_controller_control : Py World unit :=
  fun w =>
    if Enabled (button_controller_control (fst w)) then
      match control_bindings (fst w) with
      | h :: _ => run_handler h w
      | [] => (w, Returned tt)
      end
    else (w, Returned tt).

(** [on_menu_pause(self, event)] *)
Definition on_menu_pause : Py World unit :=
  try_except (context (line "pause")) AttributeError (ret tt).

(** [on_menu_stop(self, event)] *)
Definition on_menu_stop : Py World unit :=
  try_except (context (line "estop")) AttributeError (ret tt).

(** [action] of [register_panel_stop] and of [register_panel_pause]
    (wxmeerk40t.py), and [ActionPanel.on_button_go_click]. *)
Definition stop_action : Py K unit := context_call (line "estop").

Definition on_button_go_click (action : option (Py K unit)) : Py K unit :=
  match action with
  | Some a => a
  | None => ret tt
  end.

End Window.

(** ** wxMeerK40t.__init__: the timer that drives the kernel *)

Record Timer : Type := { Interval : option Z; Running : bool }.

(** [wx.Timer(self, id=wx.ID_ANY)] and [timer.Start(milliseconds)] *)
Definition Timer_new : Timer := {| Interval := None; Running := false |}.
Definition Timer_Start (milliseconds : Z) (t : Timer) : Timer :=
  {| Interval := Some milliseconds; Running := true |}.

(** What [wxMeerK40t.__init__] touches of the kernel. *)
Class Scheduler (K : Type) : Type := {
  scheduler_main : K -> K;
  set_scheduler_handles_main_thread_jobs : bool -> K -> K;
}.

(** The application object: its timer and the handler bound to [EVT_TIMER]. *)
Record App (K : Type) : Type := {
  timer : Timer;
  EVT_TIMER : option (K -> K);
}.
Arguments timer {K} a.
Arguments EVT_TIMER {K} a.

Section Application.
Context {K : Type} `{Sch : Scheduler K}.

(** Lines 412-415 of wxmeerk40t.py. *)
Definition wxMeerK40t_init (k : K) : App K * K :=
  let t := Timer_new in
  let bound := Some scheduler_main in
  let k := set_scheduler_handles_main_thread_jobs false k in
  let t := Timer_Start 50 t in
  ({| timer := t; EVT_TIMER := bound |}, k).

(** The timer fires: a running timer runs the handler bound to it. *)
Definition timer_tick (a : App K) (k : K) : K :=
  if Running (timer a) then
    match EVT_TIMER a with
    | Some handler => handler k
    | None => k
    end
  else k.

End Application.

(** ** PointNode *)

(** [meerk40t.svgelements] is not among the sources.  [Matrix] and the
    coordinates stay abstract; a point is a pair of coordinates, read with
    [p[0]] and [p[1]].  [transform_point m p] gives the point the call returns
    and the argument as the call leaves it (a method may update its argument in
    place); [imul] is [m *= m']. *)
Class SvgElements : Type := {
  coord : Type;
  Matrix : Type;
  transform_point : Matrix -> coord * coord -> (coord * coord) * (coord * coord);
  imul : Matrix -> Matrix -> Matrix;
}.

Section PointNode.
Context `{Svg : SvgElements}.

Definition Point : Type := (coord * coord)%type.

(** The 4-tuple [(x0, y0, x1, y1)]. *)
Record Bounds : Type := { xmin : coord; ymin : coord; xmax : coord; ymax : coord }.

Record PointNode : Type := {
  point : option Point;
  matrix : option Matrix;
  settings : list (string * string);
  fill : option string;
  stroke : option string;
  stroke_width : option coord;
  lock : bool;
  _formatter : string;
  _bounds : option Bounds;
  _bounds_dirty : bool;
}.

(** [preprocess(self, context, matrix, commands)] *)
Definition preprocess (m' : Matrix) : Py PointNode unit :=
  fun n =>
    match matrix n with
    | None => (n, Raised TypeError)
    | Some m =>
        ({| point := point n; matrix := Some (imul m m'); settings := settings n;
            fill := fill n; stroke := stroke n; stroke_width := stroke_width n;
            lock := lock n; _formatter := _formatter n;
            _bounds := _bounds n; _bounds_dirty := true |}, Returned tt)
    end.

(** The property [bounds]. *)
Definition bounds : Py PointNode (option Bounds) :=
  fun n =>
    if _bounds_dirty n then
      match matrix n with
      | None => (n, Raised AttributeError)
      | Some m =>
          match point n with
          | None => (n, Raised TypeError)
          | Some pt =>
              let '(p, pt') := transform_point m pt in
              let b := {| xmin := fst p; ymin := snd p; xmax := fst p; ymax := snd p |} in
              ({| point := Some pt'; matrix := matrix n; settings := settings n;
                  fill := fill n; stroke := stroke n; stroke_width := stroke_width n;
                  lock := lock n; _formatter := _formatter n;
                  _bounds := Some b; _bounds_dirty := false |}, Returned (Some b))
          end
      end
    else (n, Returned (_bounds n)).

(** [update_point(self, index, point)] *)
Definition update_point (index : Z) (pt : Point) : Py PointNode bool :=
  ret false.

(** [add_point(self, point, index=None)] *)
Definition add_point (pt : Point) (index : option Z) : Py PointNode bool :=
  ret false.

(** A rectangle whose two corners coincide. *)
Definition degenerate (b : Bounds) : Prop := xmin b = xmax b /\ ymin b = ymax b.

(** The rectangle [(x, y, x, y)] of a point. *)
Definition rect_of (p : Point) : Bounds :=
  {| xmin := fst p; ymin := snd p; xmax := fst p; ymax := snd p |}.

(** The cache of a node is sound when a clean cache holds a degenerate
    rectangle. *)
Definition cache_ok (n : PointNode) : Prop :=
  _bounds_dirty n = false -> exists b, _bounds n = Some b /\ degenerate b.

(** The calls of the point-editing interface. *)
Inductive Edit : Type :=
| Update (index : Z) (pt : Point)
| Add (pt : Point) (index : option Z).

Definition edit (e : Edit) : Py PointNode bool :=
  match e with
  | Update i p => update_point i p
  | Add p i => add_point p i
  end.

Fixpoint edits (es : list Edit) (n : PointNode) : PointNode :=
  match es with
  | [] => n
  | e :: rest => edits rest (fst (edit e n))
  end.

End PointNode.

(** An example geometry: integer coordinates and affine matrices
    [(a, b, c, d, e, f)]; the transformation overwrites the point it is given
    and returns it. *)
Record ZMatrix : Type := { ma : Z; mb : Z; mc : Z; md : Z; me : Z; mf : Z }.

Definition ZMatrix_apply (m : ZMatrix) (p : Z * Z) : Z * Z :=
  (fst p * ma m + snd p * mc m + me m, fst p * mb m + snd p * md m + mf m).

Definition ZMatrix_mul (m m' : ZMatrix) : ZMatrix :=
  {| ma := ma m * ma m' + mb m * mc m';
     mb := ma m * mb m' + mb m * md m';
     mc := mc m * ma m' + md m * mc m';
     md := mc m * mb m' + md m * md m';
     me := me m * ma m' + mf m * mc m' + me m';
     mf := me m * mb m' + mf m * md m' + mf m' |}.

#[export] Instance Z_geometry : SvgElements := {
  coord := Z;
  Matrix := ZMatrix;
  transform_point m p := (ZMatrix_apply m p, ZMatrix_apply m p);
  imul := ZMatrix_mul;
}.

(** A point node at [(3, 4)] under a translation by [(10, 20)], not yet
    measured. *)
Definition example_node : PointNode (Svg := Z_geometry) :=
  {| point := Some (3, 4);
     matrix := Some {| ma := 1; mb := 0; mc := 0; md := 1; me := 10; mf := 20 |};
     settings := []; fill := None; stroke := None; stroke_width := None;
     lock := false; _formatter := "{element_type} {id} {stroke}";
     _bounds := None; _bounds_dirty := true |}.

(** ** Observing what a window sends *)

(** A context that also keeps the console lines it was called with, newest
    first, whatever the context behind it does with them. *)
#[export] Instance recording_context {K : Type} `{Ctx : Context K} : Context (K * list string) := {
  context_call text := fun kl =>
    match context_call text (fst kl) with
    | (k, r) => ((k, text :: snd kl), r)
    end;
  last_signal topic kl := last_signal topic (fst kl);
  get_text_thread_state := get_text_thread_state (K := K);
}.

Definition sent {K : Type} (w : Gui * (K * list string)) : list string :=
  snd (snd w).

(** A context that only remembers the last signal of each topic (an
    association list) and whose calls do nothing. *)
Definition Signals : Type := list (string * list string).

Fixpoint lookup_signal (topic : string) (s : Signals) : option (list string) :=
  match s with
  | [] => None
  | (t, args) :: rest => if (t =? topic)%string then Some args else lookup_signal topic rest
  end.

#[export] Instance signals_context : Context Signals := {
  context_call _ := ret tt;
  last_signal := lookup_signal;
  get_text_thread_state _ := "";
}.

(** A context with nothing behind it: a connection attempt is refused, and
    any other line finds no device to act on. *)
#[export] Instance unplugged_context : Context unit := {
  context_call text :=
    if (text =? line "usb_connect")%string then raise ConnectionRefusedError
    else raise AttributeError;
  last_signal _ _ := None;
  get_text_thread_state _ := "";
}.

#[export] Instance no_translation : Translation := { tr s := s }.

(** ** The controller behind the context *)

Module Kernel.

(** Modelled from the spec: the connection states of the controller
    (data model, [ConnectionState]); the driver that owns them is not among
    the sources. *)
Inductive ConnectionState : Type :=
| Uninitialized
| Connecting
| Connected
| Disconnecting
| Disconnected
| ConnectionFailed
| NoBackend
| Mock.

(** Modelled from the spec: the connection states are mutually
    exclusive; equality on them. *)
Definition ConnectionState_eqb (a b : ConnectionState) : bool :=
  match a, b with
  | Uninitialized, Uninitialized
  | Connecting, Connecting
  | Connected, Connected
  | Disconnecting, Disconnecting
  | Disconnected, Disconnected
  | ConnectionFailed, ConnectionFailed
  | NoBackend, NoBackend
  | Mock, Mock => true
  | _, _ => false
  end.

(** Modelled from the spec: the state names sent on the connection-state
    topic, as the window's [on_connection_state_change] and
    [on_button_start_usb] spell them. *)
Definition connection_name (s : ConnectionState) : string :=
  match s with
  | Uninitialized => "STATE_UNINITIALIZED"
  | Connecting => "STATE_CONNECTING"
  | Connected => "STATE_USB_CONNECTED"
  | Disconnecting => "STATE_USB_SET_DISCONNECTING"
  | Disconnected => "STATE_USB_DISCONNECTED"
  | ConnectionFailed => "STATE_CONNECTION_FAILED"
  | NoBackend => "STATE_DRIVER_NO_BACKEND"
  | Mock => "STATE_DRIVER_MOCK"
  end.

(** Modelled from the spec: the text of a thread state
    ([kernel.get_text_thread_state], not among the sources), by the names of
    the data model. *)
Definition thread_text (s : ThreadState) : string :=
  match s with
  | STATE_INITIALIZE => "Initialize"
  | STATE_IDLE => "Idle"
  | STATE_BUSY => "Busy"
  | STATE_WAIT => "Wait"
  | STATE_PAUSE => "Pause"
  | STATE_ACTIVE => "Active"
  | STATE_TERMINATE => "Terminate"
  | STATE_END => "End"
  | STATE_OTHER _ => "Unknown"
  end.

(** Modelled from the spec: [PacketStats] of the packet buffer tracker. *)
Record PacketStats : Type := {
  sent_count : Z;
  rejected_count : Z;
  last_packet_bytes : list Z;
  last_status_code : Z;
  buffer_depth : Z;
  buffer_max_seen : Z;
}.

(** Modelled from the spec: the controller state machine owns the
    connection state, the control state and the packet statistics. *)
Record Controller : Type := {
  connection : ConnectionState;
  control : ThreadState;
  stats : PacketStats;
}.

(** Modelled from the spec: an event of the bus, with its topic and its
    typed payload. *)
Inductive Payload : Type :=
| connection_payload (s : ConnectionState)
| thread_payload (s : ThreadState)
| text_payload (s : string).

Record Event : Type := { topic : string; payload : Payload }.

(** Modelled from the spec: the arguments a subscriber receives with an
    event, as the tuple [last_signal] gives back. *)
Definition payload_args (p : Payload) : list string :=
  match p with
  | connection_payload s => [connection_name s]
  | thread_payload s => [thread_text s]
  | text_payload s => [s]
  end.

(** Modelled from the spec: the commands of the command string
    interface. *)
Inductive Command : Type :=
| connect | disconnect | pause | resume | abort | estop | start | hold.

(** Modelled from the spec: how a dispatched command is reported.
    [Accepted]: the transition was made; [Acknowledged]: valid but
    inapplicable, a no-op; [Ignored]: rejected by the busy lock. *)
Inductive Report : Type := Accepted | Acknowledged | Ignored.

(** Modelled from the spec: the kernel behind the context.  [controller]
    is [None] when no active controller is attached; [published] holds the
    events sent on the bus, newest first; [reports] what the dispatcher
    reported, newest first; [main_jobs] the queued main-thread work items and
    [ran] those already run, oldest first. *)
Record t : Type := {
  controller : option Controller;
  published : list Event;
  reports : list (Command * Report);
  main_jobs : list nat;
  ran : list nat;
  scheduler_handles_main_thread_jobs : bool;
}.

(** Modelled from the spec: a transition stores the new controller,
    publishes its events and is reported; a request that changes nothing is
    only reported. *)
Definition with_controller (c : Controller) (es : list Event)
    (r : Command * Report) (k : t) : t :=
  {| controller := Some c; published := es ++ published k;
     reports := r :: reports k; main_jobs := main_jobs k; ran := ran k;
     scheduler_handles_main_thread_jobs := scheduler_handles_main_thread_jobs k |}.

Definition report (r : Command * Report) (k : t) : t :=
  {| controller := controller k; published := published k;
     reports := r :: reports k; main_jobs := main_jobs k; ran := ran k;
     scheduler_handles_main_thread_jobs := scheduler_handles_main_thread_jobs k |}.

(** Modelled from the spec: the command names of the external interface;
    any other text is a syntax error. *)
Definition parse (text : string) : option Command :=
  if (text =? line "usb_connect")%string then Some connect
  else if (text =? line "usb_disconnect")%string then Some disconnect
  else if (text =? line "pause")%string then Some pause
  else if (text =? line "resume")%string then Some resume
  else if (text =? line "abort")%string then Some abort
  else if (text =? line "estop")%string then Some estop
  else if (text =? line "start")%string then Some start
  else if (text =? line "hold")%string then Some hold
  else None.

(** Modelled from the spec: [abort]/[estop] is the one request that
    pre-empts the busy lock. *)
Definition emergency (cmd : Command) : bool :=
  match cmd with
  | abort | estop => true
  | _ => false
  end.

(** Modelled from the spec: a transition changes the connection state or
    the control state and nothing else of the controller. *)
Definition set_connection (s : ConnectionState) (c : Controller) : Controller :=
  {| connection := s; control := control c; stats := stats c |}.
Definition set_control (s : ThreadState) (c : Controller) : Controller :=
  {| connection := connection c; control := s; stats := stats c |}.

(** Modelled from the spec: the transition table of the controller state
    machine, rows triggered by a command.  [None]: the command does not apply
    in this state.  The emergency stop halts the controller: it leads to
    [Terminate], and from [Terminate] to [Idle]. *)
Definition transition (cmd : Command) (c : Controller) : option Controller :=
  match cmd with
  | connect =>
      match connection c with
      | Uninitialized | Disconnected | ConnectionFailed => Some (set_connection Connecting c)
      | _ => None
      end
  | disconnect =>
      match connection c with
      | Connected => Some (set_connection Disconnecting c)
      | _ => None
      end
  | start =>
      match control c with
      | STATE_INITIALIZE | STATE_END | STATE_IDLE => Some (set_control STATE_ACTIVE c)
      | _ => None
      end
  | hold | pause =>
      match control c with
      | STATE_ACTIVE => Some (set_control STATE_PAUSE c)
      | _ => None
      end
  | resume =>
      match control c with
      | STATE_PAUSE => Some (set_control STATE_ACTIVE c)
      | _ => None
      end
  | abort | estop =>
      match control c with
      | STATE_TERMINATE => Some (set_control STATE_IDLE c)
      | _ => Some (set_control STATE_TERMINATE c)
      end
  end.

(** Modelled from the spec: every transition publishes the new state on
    the connection-state or control-state topic; a state that did not change
    is not published again. *)
Definition announce (old new : Controller) : list Event :=
  (if ThreadState_eqb (control old) (control new) then []
   else [{| topic := "pipe;thread"; payload := thread_payload (control new) |}])
  ++
  (if ConnectionState_eqb (connection old) (connection new) then []
   else [{| topic := "pipe;state"; payload := connection_payload (connection new) |}]).

(** Modelled from the spec: the command dispatcher.  Unknown text is a
    syntax error reported to the caller; while [Busy] every request but the
    emergency stop is rejected and reported as ignored; a command that does
    not apply (or finds no controller) is acknowledged as a no-op. *)
Definition execute (text : string) : Py t unit :=
  fun k =>
    match parse text with
    | None => (k, Raised CommandSyntaxError)
    | Some cmd =>
        match controller k with
        | None => (report (cmd, Acknowledged) k, Returned tt)
        | Some c =>
            if ThreadState_eqb (control c) STATE_BUSY && negb (emergency cmd)
            then (report (cmd, Ignored) k, Returned tt)
            else
              match transition cmd c with
              | Some c' =>
                  (with_controller c' (announce c c') (cmd, Accepted) k, Returned tt)
              | None => (report (cmd, Acknowledged) k, Returned tt)
              end
        end
    end.

(** Modelled from the spec: what the hardware thread feeds back. *)
Inductive Feedback : Type :=
| connection_established
| connection_error
| backend_missing
| teardown_complete
| transmission_started
| transmission_complete.

(** Modelled from the spec: the rows of the transition table triggered by
    hardware feedback; a transmission in flight is the [Busy] state. *)
Definition react (f : Feedback) (c : Controller) : option Controller :=
  match f, connection c, control c with
  | connection_established, Connecting, _ => Some (set_connection Connected c)
  | connection_error, Connecting, _ => Some (set_connection ConnectionFailed c)
  | backend_missing, Connecting, _ => Some (set_connection NoBackend c)
  | teardown_complete, Disconnecting, _ => Some (set_connection Disconnected c)
  | transmission_started, _, STATE_ACTIVE => Some (set_control STATE_BUSY c)
  | transmission_complete, _, STATE_BUSY => Some (set_control STATE_ACTIVE c)
  | _, _, _ => None
  end.

(** Modelled from the spec: hardware feedback is applied by the controller
    thread and published like any transition; it is not a request and is not
    reported by the dispatcher. *)
Definition feedback (f : Feedback) (k : t) : t :=
  match controller k with
  | None => k
  | Some c =>
      match react f c with
      | Some c' =>
          {| controller := Some c'; published := announce c c' ++ published k;
             reports := reports k; main_jobs := main_jobs k; ran := ran k;
             scheduler_handles_main_thread_jobs := scheduler_handles_main_thread_jobs k |}
      | None => k
      end
  end.

(** Modelled from the spec: the last payload published on a topic. *)
Fixpoint last_event (tp : string) (es : list Event) : option (list string) :=
  match es with
  | [] => None
  | e :: rest =>
      if (topic e =? tp)%string then Some (payload_args (payload e))
      else last_event tp rest
  end.

(** Modelled from the spec: the tick-driven scheduler drains the queued
    work items; the kernel's own scheduler thread runs main-thread jobs only
    while [scheduler_handles_main_thread_jobs] is set. *)
Definition drain (k : t) : t :=
  {| controller := controller k; published := published k; reports := reports k;
     main_jobs := []; ran := ran k ++ main_jobs k;
     scheduler_handles_main_thread_jobs := scheduler_handles_main_thread_jobs k |}.

(** Modelled from the spec: one pass of the kernel's own scheduler
    thread. *)
Definition scheduler_thread_pass (k : t) : t :=
  if scheduler_handles_main_thread_jobs k then drain k else k.

(** Modelled from the spec: a work item is queued for the main thread. *)
Definition schedule (job : nat) (k : t) : t :=
  {| controller := controller k; published := published k; reports := reports k;
     main_jobs := main_jobs k ++ [job]; ran := ran k;
     scheduler_handles_main_thread_jobs := scheduler_handles_main_thread_jobs k |}.

(** Modelled from the spec: assignment to
    [scheduler_handles_main_thread_jobs]. *)
Definition set_flag (b : bool) (k : t) : t :=
  {| controller := controller k; published := published k; reports := reports k;
     main_jobs := main_jobs k; ran := ran k;
     scheduler_handles_main_thread_jobs := b |}.

(** Modelled from the spec: the packet statistics at controller
    start-up. *)
Definition no_stats : PacketStats :=
  {| sent_count := 0; rejected_count := 0; last_packet_bytes := [];
     last_status_code := 0; buffer_depth := 0; buffer_max_seen := 0 |}.

(** Modelled from the spec: a kernel at start-up, with a controller in the
    given states, nothing published and nothing queued. *)
Definition boot (cn : ConnectionState) (st : ThreadState) : t :=
  {| controller := Some {| connection := cn; control := st; stats := no_stats |};
     published := []; reports := []; main_jobs := []; ran := [];
     scheduler_handles_main_thread_jobs := true |}.

(** Modelled from the spec: the states of the attached controller, if any,
    and the latest report of the dispatcher. *)
Definition connection_of (k : t) : option ConnectionState :=
  option_map connection (controller k).
Definition control_of (k : t) : option ThreadState :=
  option_map control (controller k).
Definition last_report (k : t) : option (Command * Report) := hd_error (reports k).

End Kernel.

(** Modelled from the spec: the kernel as the context of a window (console
    lines go to the dispatcher, [last_signal] reads the event bus) and as the
    scheduler the application's timer drives. *)
#[export] Instance kernel_context : Context Kernel.t := {
  context_call := Kernel.execute;
  last_signal topic k := Kernel.last_event topic (Kernel.published k);
  get_text_thread_state := Kernel.thread_text;
}.

#[export] Instance kernel_scheduler : Scheduler Kernel.t := {
  scheduler_main := Kernel.drain;
  set_scheduler_handles_main_thread_jobs := Kernel.set_flag;
}.

(** ** ActionPanel and GoPanel (wxmeerk40t.py) *)

(** [resize_button]: the size asked of the icon for a button of size
    [(width, height)].  [int(minsize/25)] is a true division followed by a
    truncation towards zero; on the integers a [wx.Size] holds it is the
    truncated quotient. *)
Definition resize_button_room (width height : Z) : Z :=
  Z.quot (Z.min width height) 25 * 2.

Definition resize_button_best_size (width height : Z) : Z :=
  let minsize := Z.min width height in
  let room := Z.quot minsize 25 * 2 in
  let best_size := minsize - room in
  Z.max best_size 20.

(** What [resize_button] asks of [icon.GetBitmap]: the colour, the size and
    the buffer around the icon. *)
Record BitmapRequest : Type := {
  request_color : option string;
  request_resize : Z;
  request_buffer : Z;
}.

(** [ActionPanel.resize_button]: the bitmap of the button and the bitmap it
    shows when focused. *)
Definition resize_button (fgcolor : option string) (width height : Z) :
    BitmapRequest * BitmapRequest :=
  let best_size := resize_button_best_size width height in
  let border := 2 in
  ({| request_color := fgcolor; request_resize := best_size; request_buffer := border |},
   {| request_color := None; request_resize := best_size; request_buffer := border |}).

(** The clock [GoPanel] reads with [perf_counter]: [within_half_second t c]
    is the test [t - c < 0.5], and [time_zero] the [0] that [click_time] starts
    with. *)
Class Clock : Type := {
  Time : Type;
  time_zero : Time;
  within_half_second : Time -> Time -> bool;
}.

(** What [GoPanel] uses of the kernel besides the console: the console
    channel and the busy indicator. *)
Class GoKernel (K : Type) : Type := {
  console_channel : string -> K -> K;
  busyinfo_start : string -> K -> K;
  busyinfo_end : K -> K;
}.

#[export] Instance recording_go_kernel {K : Type} `{GK : GoKernel K} : GoKernel (K * list string) := {
  console_channel msg kl := (console_channel msg (fst kl), snd kl);
  busyinfo_start msg kl := (busyinfo_start msg (fst kl), snd kl);
  busyinfo_end kl := (busyinfo_end (fst kl), snd kl);
}.

Section GoPanel.
Context {K : Type} `{Ctx : Context K} `{GK : GoKernel K} `{Tr : Translation} `{Clk : Clock}.

Record GoPanel : Type := {
  click_time : Time;
  was_mouse : bool;
  button_go_Enabled : bool;
}.

(** [GoPanel.__init__] (the button is enabled when created). *)
Definition GoPanel_init : GoPanel :=
  {| click_time := time_zero; was_mouse := false; button_go_Enabled := true |}.

(** [GoPanel.on_mouse_down] *)
Definition on_mouse_down (p : GoPanel) : GoPanel :=
  {| click_time := click_time p; was_mouse := true;
     button_go_Enabled := button_go_Enabled p |}.

Definition go_Enable (b : bool) (p : GoPanel) : GoPanel :=
  {| click_time := click_time p; was_mouse := was_mouse p; button_go_Enabled := b |}.

(** The two console lines the Go button sends in one call. *)
Definition go_job : string :=
  line "plan clear copy preprocess validate blob preopt optimize spool"
  ++ line "plan clear".

Definition go_keyboard_message : string :=
  line "We intentionally ignored a request to start a job via the keyboard."
  ++ "You need to make your intent clear by a deliberate mouse-click".

(** [GoPanel.on_button_go_click]; [this_time] and [end_time] are the two
    readings of [perf_counter]. *)
Definition GoPanel_on_button_go_click (this_time end_time : Time) :
    Py (GoPanel * K) unit :=
  fun w =>
    let p := fst w in
    let k := snd w in
    if within_half_second this_time (click_time p) then (w, Returned tt)
    else if negb (was_mouse p) then
      ((p, console_channel (tr go_keyboard_message) k), Returned tt)
    else if negb (button_go_Enabled p) then (w, Returned tt)
    else
      let p1 := go_Enable false p in
      let k1 := busyinfo_start (tr "Processing and sending...") k in
      match context_call go_job k1 with
      | (k2, Raised e) => ((p1, k2), Raised e)
      | (k2, Returned _) =>
          let k3 := busyinfo_end k2 in
          let p2 := go_Enable true p1 in
          ({| click_time := end_time; was_mouse := false;
              button_go_Enabled := button_go_Enabled p2 |}, k3, Returned tt)
      end.

(** What happens to the Go button: the mouse goes down on it, or it emits
    a button event (from the mouse or from the keyboard). *)
Inductive GoEvent : Type :=
| MouseDown
| ButtonEvent (this_time end_time : Time).

Definition go_event (e : GoEvent) (w : GoPanel * K) : GoPanel * K :=
  match e with
  | MouseDown => (on_mouse_down (fst w), snd w)
  | ButtonEvent t t' => fst (GoPanel_on_button_go_click t t' w)
  end.

Definition go_events (es : list GoEvent) (w : GoPanel * K) : GoPanel * K :=
  fold_left (fun w e => go_event e w) es w.

(** [1] when the panel would send at the next button event that does not
    come too soon, [0] otherwise. *)
Definition armed (p : GoPanel) : nat :=
  if was_mouse p && button_go_Enabled p then 1%nat else 0%nat.

Definition is_MouseDown (e : GoEvent) : bool :=
  match e with
  | MouseDown => true
  | ButtonEvent _ _ => false
  end.

End GoPanel.

(** A clock in milliseconds, and a kernel that ignores the console channel
    and the busy indicator, for runs on concrete inputs. *)
#[export] Instance millisecond_clock : Clock := {
  Time := Z;
  time_zero := 0;
  within_half_second t c := t - c <? 500;
}.

#[export] Instance quiet_go_kernel {K : Type} : GoKernel K | 10 := {
  console_channel _ k := k;
  busyinfo_start _ k := k;
  busyinfo_end k := k;
}.

(** ** LhystudiosControllerGui: status, packet text and the controller menu *)

(** The read-only text fields of the window that the status handlers
    write. *)
Record StatusFields : Type := {
  text_byte_0 : string;
  text_byte_1 : string;
  text_byte_2 : string;
  text_byte_3 : string;
  text_byte_4 : string;
  text_byte_5 : string;
  text_desc : string;
  packet_count_text : string;
  rejected_packet_count_text : string;
  packet_text_text : string;
  text_connection_status : string;
}.

(** The fields as [__init__] creates them. *)
Definition status_fields_init : StatusFields :=
  {| text_byte_0 := ""; text_byte_1 := ""; text_byte_2 := ""; text_byte_3 := "";
     text_byte_4 := ""; text_byte_5 := ""; text_desc := "";
     packet_count_text := ""; rejected_packet_count_text := "";
     packet_text_text := ""; text_connection_status := "" |}.

(** The six byte fields, in order. *)
Definition shown_bytes (f : StatusFields) : list string :=
  [text_byte_0 f; text_byte_1 f; text_byte_2 f; text_byte_3 f; text_byte_4 f;
   text_byte_5 f].

(** What a status signal carries: [None], an [int], or a sequence of
    integers. *)
Inductive StatusData : Type :=
| status_None
| status_int (n : Z)
| status_bytes (data : list Z).

(** [self.context.packet_count] and [self.context.rejected_count]. *)
Class PacketCounters (K : Type) : Type := {
  packet_count : K -> Z;
  rejected_count : K -> Z;
}.

Definition set_text_desc (s : string) (f : StatusFields) : StatusFields :=
  {| text_byte_0 := text_byte_0 f; text_byte_1 := text_byte_1 f;
     text_byte_2 := text_byte_2 f; text_byte_3 := text_byte_3 f;
     text_byte_4 := text_byte_4 f; text_byte_5 := text_byte_5 f;
     text_desc := s;
     packet_count_text := packet_count_text f;
     rejected_packet_count_text := rejected_packet_count_text f;
     packet_text_text := packet_text_text f;
     text_connection_status := text_connection_status f |}.

Definition set_counts (sent_text rejected_text : string) (f : StatusFields) : StatusFields :=
  {| text_byte_0 := text_byte_0 f; text_byte_1 := text_byte_1 f;
     text_byte_2 := text_byte_2 f; text_byte_3 := text_byte_3 f;
     text_byte_4 := text_byte_4 f; text_byte_5 := text_byte_5 f;
     text_desc := text_desc f;
     packet_count_text := sent_text;
     rejected_packet_count_text := rejected_text;
     packet_text_text := packet_text_text f;
     text_connection_status := text_connection_status f |}.

(** [update_status(self, origin, status_data, code_string)] *)
Definition update_status {K : Type} `{PC : PacketCounters K}
    (status_data : StatusData) (code_string : string) (k : K)
    (f : StatusFields) : StatusFields :=
  let f1 :=
    match status_data with
    | status_None => f
    | status_int n => set_text_desc code_string (set_text_desc (str n) f)
    | status_bytes data =>
        match data with
        | [b0; b1; b2; b3; b4; b5] =>
            {| text_byte_0 := str b0; text_byte_1 := str b1;
               text_byte_2 := str b2; text_byte_3 := str b3;
               text_byte_4 := str b4; text_byte_5 := str b5;
               text_desc := code_string;
               packet_count_text := packet_count_text f;
               rejected_packet_count_text := rejected_packet_count_text f;
               packet_text_text := packet_text_text f;
               text_connection_status := text_connection_status f |}
        | _ => f
        end
    end in
  set_counts (str (packet_count k)) (str (rejected_count k)) f1.

(** [update_packet_text(self, origin, string_data)], for a string or
    [None]. *)
Definition update_packet_text (string_data : option string) (f : StatusFields) :
    StatusFields :=
  match string_data with
  | Some s =>
      if negb (Nat.eqb (String.length s) 0) then
        {| text_byte_0 := text_byte_0 f; text_byte_1 := text_byte_1 f;
           text_byte_2 := text_byte_2 f; text_byte_3 := text_byte_3 f;
           text_byte_4 := text_byte_4 f; text_byte_5 := text_byte_5 f;
           text_desc := text_desc f;
           packet_count_text := packet_count_text f;
           rejected_packet_count_text := rejected_packet_count_text f;
           packet_text_text := s;
           text_connection_status := text_connection_status f |}
      else f
  | None => f
  end.

(** [on_connection_status_change(self, origin, status)], for a string. *)
Definition on_connection_status_change (status : string) (f : StatusFields) :
    StatusFields :=
  {| text_byte_0 := text_byte_0 f; text_byte_1 := text_byte_1 f;
     text_byte_2 := text_byte_2 f; text_byte_3 := text_byte_3 f;
     text_byte_4 := text_byte_4 f; text_byte_5 := text_byte_5 f;
     text_desc := text_desc f;
     packet_count_text := packet_count_text f;
     rejected_packet_count_text := rejected_packet_count_text f;
     packet_text_text := packet_text_text f;
     text_connection_status := status |}.

(** The signals of the three topics, as they reach the window. *)
Inductive StatusSignal : Type :=
| pipe_status (status_data : StatusData) (code_string : string)
| pipe_packet_text (string_data : option string)
| pipe_usb_status (status : string).

Definition status_signal {K : Type} `{PC : PacketCounters K}
    (k : K) (sg : StatusSignal) (f : StatusFields) : StatusFields :=
  match sg with
  | pipe_status d c => update_status d c k f
  | pipe_packet_text s => update_packet_text s f
  | pipe_usb_status s => on_connection_status_change s f
  end.

Definition status_signals {K : Type} `{PC : PacketCounters K}
    (k : K) (sgs : list StatusSignal) (f : StatusFields) : StatusFields :=
  fold_left (fun f sg => status_signal k sg f) sgs f.

(** The byte fields a signal fills, if it fills them: a status of exactly
    six values. *)
Definition signal_bytes (sg : StatusSignal) : option (list string) :=
  match sg with
  | pipe_status (status_bytes [b0; b1; b2; b3; b4; b5]) _ =>
      Some [str b0; str b1; str b2; str b3; str b4; str b5]
  | _ => None
  end.

(** The packet text a signal shows, if it shows one: a non-empty string. *)
Definition signal_packet_text (sg : StatusSignal) : option string :=
  match sg with
  | pipe_packet_text (Some s) => if Nat.eqb (String.length s) 0 then None else Some s
  | _ => None
  end.

(** The last element of [l] for which [f] gives a value, or [d]. *)
Definition last_some {A B : Type} (f : A -> option B) (l : list A) (d : B) : B :=
  fold_left (fun acc a => match f a with Some b => b | None => acc end) l d.

(** [s.split(sep)] for a separator of one character: the pieces between
    the separators, at least one piece. *)
Fixpoint split (sep : ascii) (s : string) : list string :=
  match s with
  | EmptyString => [EmptyString]
  | String a rest =>
      if Ascii.eqb a sep then EmptyString :: split sep rest
      else
        match split sep rest with
        | piece :: pieces => String a piece :: pieces
        | [] => [String a EmptyString]
        end
  end.

(** [l[-1]] for a list of strings that is not empty. *)
Definition last_piece (l : list string) : string := List.last l EmptyString.

(** [sep.join(l)] *)
Fixpoint join (sep : string) (l : list string) : string :=
  match l with
  | [] => EmptyString
  | [x] => x
  | x :: rest => x ++ sep ++ join sep rest
  end.

(** The character [sep] occurs in [s]. *)
Fixpoint occurs (sep : ascii) (s : string) : bool :=
  match s with
  | EmptyString => false
  | String a rest => Ascii.eqb a sep || occurs sep rest
  end.

(** What [on_controller_menu] uses of the context: the names matching
    ["control"], and [execute]. *)
Class Controls (K : Type) : Type := {
  match_control : K -> list string;
  context_execute : string -> Py K unit;
}.

(** A context that keeps the controls executed, newest first. *)
#[export] Instance recording_controls {K : Type} `{Cs : Controls K} : Controls (K * list string) := {
  match_control kl := match_control (fst kl);
  context_execute name := fun kl =>
    match context_execute name (fst kl) with
    | (k, r) => ((k, name :: snd kl), r)
    end;
}.

(** The menu the window pops up: the labels of the sub-menu, in order,
    under the entry "Kernel Force Event". *)
Record PopupMenu : Type := {
  menu_entry : string;
  sub_menu : list string;
}.

Section ControllerMenu.
Context {K : Type} `{Cs : Controls K} `{Tr : Translation}.

(** The loop of [on_controller_menu]: for each control, [execute] is
    evaluated first (it is an argument of [Bind]), then the entry is appended
    to the sub-menu. *)
Fixpoint controller_menu_items (names : list string) (items : list string) :
    Py K (list string) :=
  match names with
  | [] => ret items
  | control_name :: rest =>
      fun k =>
        match context_execute control_name k with
        | (k', Raised e) => (k', Raised e)
        | (k', Returned _) =>
            controller_menu_items rest
              (items ++ [last_piece (split "/"%char control_name)])%list k'
        end
  end.

(** [on_controller_menu(self, event)]: the menu popped up.  The menu always
    holds its one entry, so it is always popped up when the loop returns. *)
Definition on_controller_menu : Py K PopupMenu :=
  fun k =>
    match controller_menu_items (match_control k) [] k with
    | (k', Raised e) => (k', Raised e)
    | (k', Returned items) =>
        (k', Returned {| menu_entry := tr "Kernel Force Event"; sub_menu := items |})
    end.

End ControllerMenu.

(** ** handleGUIException: the summary of the local variables *)

(** [" " * n] *)
Fixpoint spaces (n : nat) : string :=
  match n with
  | O => EmptyString
  | S m => String " "%char (spaces m)
  end.

Definition newline : ascii := "010"%char.

(** [s.replace("\n", "\n" + pad)] *)
Fixpoint indent_lines (pad : string) (s : string) : string :=
  match s with
  | EmptyString => EmptyString
  | String a rest =>
      if Ascii.eqb a newline then String newline (pad ++ indent_lines pad rest)
      else String a (indent_lines pad rest)
  end.

(** One turn of the loop of [_variable_summary]: the text added for a
    variable [name] whose value prints as [value]. *)
Definition variable_entry (indent : Z) (name value : string) : string :=
  let label := spaces (Z.to_nat indent) ++ name ++ " : " in
  let total_indent := String.length label in
  let formatted := indent_lines (spaces total_indent) value in
  label ++ formatted ++ String newline EmptyString.

(** [_variable_summary(vars, indent)], for the items of [vars] in order,
    each value already printed with [str]. *)
Fixpoint _variable_summary (vars : list (string * string)) (indent : Z) : string :=
  match vars with
  | [] => EmptyString
  | (name, value) :: rest => variable_entry indent name value ++ _variable_summary rest indent
  end.

(** The number of newlines of a string. *)
Fixpoint count_newlines (s : string) : nat :=
  match s with
  | EmptyString => O
  | String a rest => (if Ascii.eqb a newline then 1 else 0) + count_newlines rest
  end.

(** ** PointNode: validate, revalidate_points and default_map *)

(** What these methods use of [svgelements] and of Python's numbers beyond
    [SvgElements]: [Matrix()], [m.pre_translate(x, y)] (in place), the number
    [0], [float(s)] for the string of a setting ([None]: it raises
    [ValueError]), and [(a + b) / 2]. *)
Class SvgConstruct `{Svg : SvgElements} : Type := {
  Matrix_new : Matrix;
  pre_translate : Matrix -> coord -> coord -> Matrix;
  coord_zero : coord;
  float_of : string -> option coord;
  half_sum : coord -> coord -> coord;
}.

(** [d.get(key)] for a dictionary kept as an association list: the first
    binding of the key. *)
Fixpoint dict_get {V : Type} (key : string) (d : list (string * V)) : option V :=
  match d with
  | [] => None
  | (k, v) :: rest => if (k =? key)%string then Some v else dict_get key rest
  end.

Section PointNodeMore.
Context `{SvgC : SvgConstruct}.

(** How [validate] ends: it returns, or [float] raised [ValueError]. *)
Inductive ValidateOutcome : Type :=
| validate_returned
| validate_ValueError.

Definition set_matrix_point (m : option Matrix) (pt : option Point) (n : PointNode) :
    PointNode :=
  {| point := pt; matrix := m; settings := settings n;
     fill := fill n; stroke := stroke n; stroke_width := stroke_width n;
     lock := lock n; _formatter := _formatter n;
     _bounds := _bounds n; _bounds_dirty := _bounds_dirty n |}.

(** [float(self.settings.get(key, 0))] *)
Definition float_setting (key : string) (n : PointNode) : option coord :=
  match dict_get key (settings n) with
  | None => Some coord_zero
  | Some v => float_of v
  end.

(** [validate(self)] *)
Definition validate (n : PointNode) : PointNode * ValidateOutcome :=
  let n1 :=
    match matrix n with
    | None => set_matrix_point (Some Matrix_new) (point n) n
    | Some _ => n
    end in
  match point n1 with
  | Some _ => (n1, validate_returned)
  | None =>
      match float_setting "x" n1 with
      | None => (n1, validate_ValueError)
      | Some x =>
          match float_setting "y" n1 with
          | None => (n1, validate_ValueError)
          | Some y =>
              (set_matrix_point
                 (option_map (fun m => pre_translate m x y) (matrix n1))
                 (Some (coord_zero, coord_zero)) n1,
               validate_returned)
          end
      end
  end.

(** An entry of [_points]: [[x, y, label]]. *)
Definition PointEntry : Type := (coord * coord * string)%type.

(** [l[i] = x], for an index inside the list. *)
Fixpoint list_set {A : Type} (i : nat) (x : A) (l : list A) : list A :=
  match l, i with
  | [], _ => []
  | _ :: rest, O => x :: rest
  | y :: rest, S j => y :: list_set j x rest
  end.

(** The nine handles [revalidate_points] writes at the indices 0 to 8. *)
Definition bounds_handles (b : Bounds) : list (option PointEntry) :=
  let cx := half_sum (xmin b) (xmax b) in
  let cy := half_sum (ymin b) (ymax b) in
  [ Some (xmin b, ymin b, "bounds top_left");
    Some (xmax b, ymin b, "bounds top_right");
    Some (xmin b, ymax b, "bounds bottom_left");
    Some (xmax b, ymax b, "bounds bottom_right");
    Some (cx, cy, "bounds center_center");
    Some (cx, ymin b, "bounds top_center");
    Some (cx, ymax b, "bounds bottom_center");
    Some (xmin b, cy, "bounds center_left");
    Some (xmax b, cy, "bounds center_right") ].

(** The assignments [self._points[0] = ...] to [self._points[8] = ...]. *)
Fixpoint set_handles (i : nat) (handles : list (option PointEntry))
    (pts : list (option PointEntry)) : list (option PointEntry) :=
  match handles with
  | [] => pts
  | h :: rest => set_handles (S i) rest (list_set i h pts)
  end.

(** [revalidate_points(self)], on the node and its list [_points]. *)
Definition revalidate_points : Py (PointNode * list (option PointEntry)) unit :=
  fun w =>
    let pts := snd w in
    match bounds (fst w) with
    | (n, Raised e) => ((n, pts), Raised e)
    | (n, Returned None) => ((n, pts), Returned tt)
    | (n, Returned (Some b)) =>
        let pts1 :=
          if (List.length pts <? 9)%nat
          then (pts ++ repeat None (9 - List.length pts))%list
          else pts in
        let pts2 := set_handles 0 (bounds_handles b) pts1 in
        match point n with
        | None => ((n, pts2), Raised AttributeError)
        | Some pt => ((n, (pts2 ++ [Some (fst pt, snd pt, "point")])%list), Returned tt)
        end
    end.

(** [revalidate_points] called [k] times in a row. *)
Fixpoint revalidations (k : nat) (w : PointNode * list (option PointEntry)) :
    PointNode * list (option PointEntry) :=
  match k with
  | O => w
  | S j => revalidations j (fst (revalidate_points w))
  end.

(** The values of the map [default_map] gives. *)
Inductive MapValue : Type :=
| value_str (s : string)
| value_coord (c : coord)
| value_int (z : Z)
| value_None
| value_matrix (m : Matrix).

Definition value_of_str (s : option string) : MapValue :=
  match s with
  | Some x => value_str x
  | None => value_None
  end.

(** [default_map(self, default_map=None)]; [base] is the map the method of
    the parent class gives.  An assignment [d[k] = v] puts the binding in
    front, [d.update(settings)] puts the settings in front. *)
Definition default_map (base : list (string * MapValue)) (n : PointNode) :
    list (string * MapValue) :=
  let d := base in
  let d := ("element_type", value_str "Point") :: d in
  let d :=
    match point n with
    | Some pt => ("y", value_coord (snd pt)) :: ("x", value_coord (fst pt)) :: d
    | None => ("y", value_int 0) :: ("x", value_int 0) :: d
    end in
  let d := (map (fun kv => (fst kv, value_str (snd kv))) (settings n) ++ d)%list in
  let d := ("stroke", value_of_str (stroke n)) :: d in
  let d := ("fill", value_of_str (fill n)) :: d in
  let d :=
    ("stroke-width",
     match stroke_width n with
     | Some c => value_coord c
     | None => value_None
     end) :: d in
  let d :=
    ("matrix",
     match matrix n with
     | Some m => value_matrix m
     | None => value_None
     end) :: d in
  d.

End PointNodeMore.

(** The example geometry, completed: the identity, a translation applied
    before the matrix, and settings read as decimal integers. *)
#[export] Instance Z_construct : SvgConstruct (Svg := Z_geometry) := {
  Matrix_new := {| ma := 1; mb := 0; mc := 0; md := 1; me := 0; mf := 0 |};
  pre_translate m x y :=
    ZMatrix_mul {| ma := 1; mb := 0; mc := 0; md := 1; me := x; mf := y |} m;
  coord_zero := 0;
  float_of s := option_map Z.of_int (NilZero.int_of_string s);
  half_sum a b := (a + b) / 2;
}.

(** A point node as read from a file: no point, no matrix, and its
    position in the settings. *)
Definition example_unvalidated : PointNode (Svg := Z_geometry) :=
  {| point := None; matrix := None;
     settings := [("x", "7"); ("y", "9")];
     fill := None; stroke := Some "blue"; stroke_width := None;
     lock := false; _formatter := "{element_type} {id} {stroke}";
     _bounds := None; _bounds_dirty := true |}.

(** ** wxMeerK40t: the language and the files opened from the dock *)

Inductive WxLanguage : Type :=
| LANGUAGE_ENGLISH
| LANGUAGE_ITALIAN
| LANGUAGE_FRENCH
| LANGUAGE_GERMAN
| LANGUAGE_SPANISH
| LANGUAGE_CHINESE
| LANGUAGE_HUNGARIAN
| LANGUAGE_PORTUGUESE
| LANGUAGE_PORTUGUESE_BRAZILIAN
| LANGUAGE_JAPANESE
| LANGUAGE_DUTCH.

(** The tuple [supported_languages]. *)
Definition supported_languages : list (string * string * WxLanguage) :=
  [ ("en", "English", LANGUAGE_ENGLISH);
    ("it", "italiano", LANGUAGE_ITALIAN);
    ("fr", "français", LANGUAGE_FRENCH);
    ("de", "Deutsch", LANGUAGE_GERMAN);
    ("es", "español", LANGUAGE_SPANISH);
    ("zh", "中文", LANGUAGE_CHINESE);
    ("hu", "Magyar", LANGUAGE_HUNGARIAN);
    ("pt_PT", "português", LANGUAGE_PORTUGUESE);
    ("pt_BR", "português brasileiro", LANGUAGE_PORTUGUESE_BRAZILIAN);
    ("ja", "日本", LANGUAGE_JAPANESE);
    ("nl", "Nederlands", LANGUAGE_DUTCH) ].

(** [t[i]] for a tuple and a Python int: indices from [-len(t)] to
    [len(t) - 1] are valid, the negative ones counting from the end; [None]
    stands for [IndexError]. *)
Definition py_index {A : Type} (t : list A) (i : Z) : option A :=
  if 0 <=? i then nth_error t (Z.to_nat i)
  else if - Z.of_nat (List.length t) <=? i
       then nth_error t (Z.to_nat (Z.of_nat (List.length t) + i))
       else None.

Record Locale : Type := {
  locale_language : WxLanguage;
  locale_catalogs : list string;
}.

(** What [update_language] reads and writes: [context.language],
    [self.locale], and the "language" signals sent, newest first. *)
Record LanguageState : Type := {
  context_language : option Z;
  app_locale : option Locale;
  language_signals : list (Z * string * string * WxLanguage);
}.

(** What [update_language] asks of its platform: whether the locale of a
    language is usable ([IsOk]), whether the system is Linux, and whether the
    reference-count assertion on the old locale holds. *)
Class Platform : Type := {
  locale_IsOk : WxLanguage -> bool;
  system_is_Linux : bool;
  refcount_ok : bool;
}.

Inductive LanguageOutcome : Type :=
| language_returned
| language_AssertionError.

(** [update_language(self, lang)] *)
Definition update_language `{Pf : Platform} (lang : Z) (st : LanguageState) :
    LanguageState * LanguageOutcome :=
  match py_index supported_languages lang with
  | None => (st, language_returned)
  | Some (language_code, language_name, language_index) =>
      let st1 :=
        {| context_language := Some lang; app_locale := app_locale st;
           language_signals := language_signals st |} in
      match app_locale st1, refcount_ok with
      | Some _, false => (st1, language_AssertionError)
      | _, _ =>
          let new_locale :=
            if locale_IsOk language_index || system_is_Linux
            then Some {| locale_language := language_index;
                         locale_catalogs := ["meerk40t"] |}
            else None in
          ({| context_language := Some lang; app_locale := new_locale;
              language_signals :=
                (lang, language_code, language_name, language_index)
                :: language_signals st |}, language_returned)
      end
  end.

(** What the dock handlers use of the context: whether it has its
    [elements], [elements.load], and [os.path.realpath]. *)
Class Elements (K : Type) : Type := {
  has_elements : K -> bool;
  elements_load : string -> Py K unit;
  realpath : string -> string;
}.

(** A context that keeps the paths [load] was called with, newest
    first. *)
#[export] Instance recording_elements {K : Type} `{El : Elements K} : Elements (K * list string) := {
  has_elements kl := has_elements (fst kl);
  elements_load path := fun kl =>
    match elements_load path (fst kl) with
    | (k, r) => ((k, path :: snd kl), r)
    end;
  realpath := realpath (K := K);
}.

Section Dock.
Context {K : Type} `{El : Elements K}.

(** [self.context.elements.load(os.path.realpath(filename))] *)
Definition load_file (filename : string) : Py K unit :=
  fun k =>
    if has_elements k then elements_load (realpath (K := K) filename) k
    else (k, Raised AttributeError).

(** The loop of [MacOpenFiles]. *)
Fixpoint load_files (filenames : list string) : Py K unit :=
  match filenames with
  | [] => ret tt
  | filename :: rest => load_file filename ;; load_files rest
  end.

(** [MacOpenFiles(self, filenames)]; [has_context] is
    [self.context is not None]. *)
Definition MacOpenFiles (has_context : bool) (filenames : list string) : Py K unit :=
  try_except
    (if has_context then load_files filenames else ret tt)
    AttributeError
    (ret tt).

(** [MacOpenFile(self, filename)] *)
Definition MacOpenFile (has_context : bool) (filename : string) : Py K unit :=
  try_except
    (if has_context then load_file filename else ret tt)
    AttributeError
    (ret tt).

End Dock.

(** ** send_data_to_developers (wxmeerk40t.py) *)



















(** ** LhystudiosControllerGui: what the controller button stands for *)

(** The console lines the closure [f] bound for a control state sends, and
    the label and the icon the button gets: the branches of
    [on_control_state] that bind a handler. *)
Definition state_action (s : ThreadState) : option (list string * string * Icon) :=
  match s with
  | STATE_INITIALIZE | STATE_END | STATE_IDLE =>
      Some ([line "start"; line "hold"], "Hold Controller", icons8_play_50)
  | STATE_WAIT =>
      Some ([line "control Wait Abort"], "Force Continue", icons8_laser_beam_hazard_50)
  | STATE_PAUSE => Some ([line "resume"], "Resume Controller", icons8_play_50)
  | STATE_ACTIVE => Some ([line "hold"], "Pause Controller", icons8_pause_50)
  | STATE_TERMINATE => Some ([line "abort"], "Manual Reset", icons8_emergency_stop_button_50)
  | STATE_BUSY | STATE_OTHER _ => None
  end.

(** The controller button shows and does what the last control state seen
    asks for (on a window whose status text exists). *)
Definition button_follows_state `{Tr : Translation} (g : Gui) : Prop :=
  text_controller_status g <> None /\
  forall s lines label icon,
    last_control_state g = Some s ->
    state_action s = Some (lines, label, icon) ->
    List.hd_error (control_bindings g) = Some (send lines) /\
    Enabled (button_controller_control g) = true /\
    Label (button_controller_control g) = tr label /\
    Bitmap (button_controller_control g) = icon.

(** ** The controller window over a history of deliveries *)

(** What reaches the attributes of [Gui]: the buffer, control-state and
    connection-state signals, the clicks on the two buttons, the Pause and Stop
    entries of the menu, and the closing of the window. *)
Inductive Delivery : Type :=
| pipe_buffer (value : Z)
| pipe_thread (state : ThreadState)
| pipe_state (state : string)
| click_start_usb
| click_control
| menu_pause
| menu_stop
| close.

Section Deliveries.
Context {K : Type} `{Ctx : Context K} `{Tr : Translation}.

(** The handler a delivery runs. *)
Definition deliver (d : Delivery) : Py World unit :=
  fun w =>
    match d with
    | pipe_buffer value =>
        match on_buffer_update value (fst w) with
        | (g, r) => ((g, snd w), r)
        end
    | pipe_thread state => ((on_control_state state (fst w), snd w), Returned tt)
    | pipe_state state => on_connection_state_change state w
    | click_start_usb => on_button_start_usb w
    | click_control => click_controller_control w
    | menu_pause => on_menu_pause w
    | menu_stop => on_menu_stop w
    | close => ((window_close (fst w), snd w), Returned tt)
    end.

(** The window and the kernel after the deliveries of [ds], in order.  Every
    delivery is an event of its own: what one handler raises does not reach
    the next. *)
Definition deliveries (ds : list Delivery) (w : World) : World :=
  fold_left (fun w d => fst (deliver d w)) ds w.

End Deliveries.

(** The two widgets [on_buffer_update] writes to are missing. *)
Definition no_buffer_widgets (g : Gui) : Prop :=
  text_buffer_length g = None /\ gauge_buffer g = None.

(** ** What reaches the controller *)

(** Modelled from the spec: the controller state machine is driven by the
    console lines handed to the dispatcher and by the feedback of the hardware
    thread (4.3, rules); the controller itself is not among the sources. *)
Inductive Stimulus : Type :=
| console (text : string)
| hardware (f : Kernel.Feedback).

Definition stimulate (s : Stimulus) (k : Kernel.t) : Kernel.t :=
  match s with
  | console text => fst (Kernel.execute text k)
  | hardware f => Kernel.feedback f k
  end.

Definition stimulate_all (ss : list Stimulus) (k : Kernel.t) : Kernel.t :=
  fold_left (fun k s => stimulate s k) ss k.

(** Modelled from the spec: the two ways out of [Busy]: the transmission
    in flight completes, or an emergency stop ([abort]/[estop]) pre-empts the
    lock. *)
Definition clears_busy (s : Stimulus) : bool :=
  match s with
  | console text =>
      match Kernel.parse text with
      | Some cmd => Kernel.emergency cmd
      | None => false
      end
  | hardware Kernel.transmission_complete => true
  | hardware _ => false
  end.



(** * Properties *)

(** ** Equality of thread states *)

Lemma ThreadState_eqb_refl (s : ThreadState) : ThreadState_eqb s s = true.
Proof. destruct s; simpl; auto using Z.eqb_refl. Qed.

Lemma ThreadState_eqb_eq (a b : ThreadState) :
  ThreadState_eqb a b = true <-> a = b.
Proof.
  split.
  - destruct a, b; simpl; intros H; try discriminate; try reflexivity.
    apply Z.eqb_eq in H. now subst.
  - intros ->. apply ThreadState_eqb_refl.
Qed.

(** ** The buffer maximum *)

Lemma on_buffer_update_buffer_max (v : Z) (g : Gui) :
  buffer_max (fst (on_buffer_update v g)) =
  if gui_update g then Z.max (buffer_max g) v else buffer_max g.
Proof.
  unfold on_buffer_update.
  destruct (gui_update g) eqn:Hu; [| reflexivity].
  destruct (Z.gtb_spec v (buffer_max g)) as [Hgt | Hle].
  - cbn [text_buffer_length set_buffer_max].
    destruct (text_buffer_length g); cbn; [| lia].
    destruct (gauge_buffer g); cbn; lia.
  - destruct (text_buffer_length g); cbn; [| lia].
    destruct (gauge_buffer g); cbn; lia.
Qed.

Lemma on_buffer_update_gui_update (v : Z) (g : Gui) :
  gui_update (fst (on_buffer_update v g)) = gui_update g.
Proof.
  unfold on_buffer_update.
  destruct (gui_update g) eqn:Hu; [| exact Hu].
  destruct (v >? buffer_max g);
    cbn [text_buffer_length set_buffer_max];
    (destruct (text_buffer_length g); cbn; [| exact Hu]);
    destruct (gauge_buffer g); cbn; exact Hu.
Qed.

Lemma buffer_updates_buffer_max (values : list Z) :
  forall g,
    buffer_max (buffer_updates values g) =
    if gui_update g then fold_left Z.max values (buffer_max g) else buffer_max g.
Proof.
  induction values as [| v rest IH]; intros g; simpl.
  - now destruct (gui_update g).
  - rewrite IH, on_buffer_update_gui_update, on_buffer_update_buffer_max.
    now destruct (gui_update g).
Qed.

Lemma buffer_updates_app (xs ys : list Z) :
  forall g, buffer_updates (xs ++ ys) g = buffer_updates ys (buffer_updates xs g).
Proof. induction xs as [| x xs IH]; intros g; simpl; auto. Qed.

Lemma fold_left_max_init (values : list Z) :
  forall a b, fold_left Z.max values (Z.max a b) = Z.max a (fold_left Z.max values b).
Proof.
  induction values as [| v rest IH]; intros a b; simpl; [reflexivity |].
  now rewrite <- IH, Z.max_assoc.
Qed.

(** C1, as stated, fails: the window starts with [buffer_max = 1], so after
    the single update [0] the recorded maximum is [1] and not the largest value
    seen, [0]. *)
Lemma C1_buffer_max_is_not_max_seen :
  buffer_max (buffer_updates [0] gui_init) <> max_seen 0 [].
Proof. vm_compute. discriminate. Qed.

(** C1, amended: on a window that is open ([gui_init]), after any non-empty
    sequence of buffer updates [buffer_max] is the larger of its initial value
    [1] and the largest value seen; on any window, a sequence of updates leaves
    [buffer_max] at the maximum of its old value and the values when
    [gui_update] is set and untouched otherwise (so after [window_close]);
    and [buffer_max] never
    decreases, at a single update or from a prefix of the sequence to a longer
    one. *)
Theorem C1_buffer_max_tracks_maximum :
  (forall v rest,
     buffer_max (buffer_updates (v :: rest) gui_init) = Z.max 1 (max_seen v rest)) /\
  (forall values g,
     buffer_max (buffer_updates values g) =
     if gui_update g then fold_left Z.max values (buffer_max g) else buffer_max g) /\
  (forall values g,
     buffer_max (buffer_updates values (window_close g)) = buffer_max g) /\
  (forall v g, buffer_max g <= buffer_max (fst (on_buffer_update v g))) /\
  (forall values v g,
     buffer_max (buffer_updates values g) <=
     buffer_max (buffer_updates (values ++ [v]) g)).
Proof.
  assert (Hstep : forall v g, buffer_max g <= buffer_max (fst (on_buffer_update v g))).
  { intros v g. rewrite on_buffer_update_buffer_max.
    destruct (gui_update g); lia. }
  repeat split.
  - intros v rest. rewrite buffer_updates_buffer_max.
    cbn [gui_update gui_init buffer_max fold_left]. unfold max_seen.
    apply fold_left_max_init.
  - intros values g. apply buffer_updates_buffer_max.
  - intros values g. now rewrite buffer_updates_buffer_max.
  - exact Hstep.
  - intros values v g. rewrite buffer_updates_app. simpl. apply Hstep.
Qed.

(** ** Repeated notifications *)

Section Notifications.
Context {K : Type} `{Ctx : Context K} `{Tr : Translation}.

Lemma on_control_state_last (s : ThreadState) (g : Gui) :
  last_control_state (on_control_state s g) = Some s.
Proof.
  unfold on_control_state.
  destruct (last_control_state g) as [l |] eqn:Hl.
  - destruct (ThreadState_eqb l s) eqn:E.
    + apply ThreadState_eqb_eq in E. now subst.
    + cbn. destruct (text_controller_status g); [destruct s |]; reflexivity.
  - cbn. destruct (text_controller_status g); [destruct s |]; reflexivity.
Qed.

Lemma on_control_state_same (s : ThreadState) (g : Gui) :
  last_control_state g = Some s -> on_control_state s g = g.
Proof.
  intros H. unfold on_control_state. now rewrite H, ThreadState_eqb_refl.
Qed.

Lemma on_connection_state_change_twice (state : string) (w : World) :
  on_connection_state_change state (fst (on_connection_state_change state w)) =
  on_connection_state_change state w.
Proof.
  destruct w as [g k]. unfold on_connection_state_change.
  repeat match goal with
         | |- context [if ?b then _ else _] => destruct b
         end;
    unfold bind, gui_do, modify, last_signal_0, ret; cbn;
    try reflexivity;
    destruct (last_signal "pipe;usb_status" k) as [[| x args] |] eqn:E;
    cbn; rewrite ?E; reflexivity.
Qed.

End Notifications.

(** C4: a control-state notification equal to the last one seen is skipped
    and changes nothing, so delivering the same control state twice in a row
    does what delivering it once does; and a connection-state notification
    delivered a second time in a row leaves the window and the kernel as the
    first delivery left them, with the same outcome. *)
Theorem C4_repeated_notification_is_noop
    {K : Type} `{Ctx : Context K} `{Tr : Translation} :
  (forall (s : ThreadState) (g : Gui),
     last_control_state g = Some s -> on_control_state s g = g) /\
  (forall (s : ThreadState) (g : Gui),
     on_control_state s (on_control_state s g) = on_control_state s g) /\
  (forall (state : string) (w : World),
     on_connection_state_change state (fst (on_connection_state_change state w)) =
     on_connection_state_change state w).
Proof.
  split; [| split].
  - intros s g. apply on_control_state_same.
  - intros s g. apply on_control_state_same, on_control_state_last.
  - intros state w. apply on_connection_state_change_twice.
Qed.

Lemma C4_repeated_notification_witness :
  last_control_state (on_control_state (K := Kernel.t) STATE_BUSY gui_init) = Some STATE_BUSY /\
  on_control_state (K := Kernel.t) STATE_BUSY
    (on_control_state (K := Kernel.t) STATE_BUSY gui_init) =
  on_control_state (K := Kernel.t) STATE_BUSY gui_init.
Proof.
  split; [reflexivity |].
  apply (proj1 (C4_repeated_notification_is_noop (K := Kernel.t))).
  reflexivity.
Defined.

(** ** What the handlers send *)

Lemma opt_string_eqb_eq (a b : option string) : opt_string_eqb a b = true <-> a = b.
Proof.
  destruct a as [x |], b as [y |]; simpl; try (split; congruence).
  rewrite String.eqb_eq. split; congruence.
Qed.

Lemma py_in_In (x : option string) (t : list (option string)) :
  py_in x t = true <-> In x t.
Proof.
  unfold py_in. rewrite existsb_exists. split.
  - intros [y [Hy E]]. apply opt_string_eqb_eq in E. now subst.
  - intros H. exists x. split; [exact H | now apply opt_string_eqb_eq].
Qed.

Lemma cons_neq_self {A : Type} (x : A) (l : list A) : x :: l <> l.
Proof.
  intros E. apply (f_equal (@List.length A)) in E. simpl in E.
  revert E. apply Nat.neq_succ_diag_l.
Qed.

Section Sent.
Context {K : Type} `{Ctx : Context K} `{Tr : Translation}.

Lemma sent_context (text : string) (g : Gui) (k : K) (log : list string) :
  sent (fst (context text (g, (k, log)))) = text :: log /\
  fst (fst (context text (g, (k, log)))) = g.
Proof.
  unfold context, sent. cbn.
  destruct (context_call text k) as [k' r]. now cbn.
Qed.

Lemma sent_try_context (text : string) (e : Exn) (f : Gui -> Gui)
    (g : Gui) (k : K) (log : list string) :
  sent (fst (try_except (context text) e (gui_do f) (g, (k, log)))) = text :: log.
Proof.
  unfold try_except, context, sent. cbn.
  destruct (context_call text k) as [k' [[] | e']]; cbn; [reflexivity |].
  destruct (Exn_eqb e' e); reflexivity.
Qed.

Lemma sent_try_pass (text : string) (e : Exn)
    (g : Gui) (k : K) (log : list string) :
  sent (fst (try_except (context text) e (ret tt) (g, (k, log)))) = text :: log.
Proof.
  unfold try_except, context, sent. cbn.
  destruct (context_call text k) as [k' [[] | e']]; cbn; [reflexivity |].
  destruct (Exn_eqb e' e); reflexivity.
Qed.

(** The lines [on_button_start_usb] sends, by the state it read. *)
Lemma on_button_start_usb_sent (g : Gui) (k : K) (log : list string) (s0 : option string) :
  last_pipe_state (g, (k, log)) = ((g, (k, log)), Returned s0) ->
  sent (fst (on_button_start_usb (g, (k, log)))) =
  if py_in s0 connect_states then line "usb_connect" :: log
  else if py_in s0 disconnect_states then line "usb_disconnect" :: log
  else log.
Proof.
  intros H. unfold on_button_start_usb, bind. rewrite H.
  destruct (py_in s0 connect_states).
  - apply sent_try_context.
  - destruct (py_in s0 disconnect_states).
    + apply sent_context.
    + reflexivity.
Qed.

End Sent.

Lemma line_connect_neq_disconnect : line "usb_connect" <> line "usb_disconnect".
Proof. vm_compute. discriminate. Qed.

Lemma connect_disconnect_disjoint (s0 : option string) :
  py_in s0 connect_states = true -> py_in s0 disconnect_states = false.
Proof.
  intros H. apply py_in_In in H. simpl in H.
  destruct H as [<- | [<- | [<- | [<- | [<- | []]]]]]; reflexivity.
Qed.

(** C7, as stated, fails: with [STATE_DRIVER_MOCK] as the last connection
    state, which is none of Uninitialized, Disconnected and ConnectionFailed,
    the connection button still sends [usb_connect]. *)
Lemma C7_connect_is_issued_in_mock_state :
  sent (fst (on_button_start_usb
               (gui_init, ([("pipe;state", ["STATE_DRIVER_MOCK"])] : Signals, [])))) =
  [line "usb_connect"].
Proof. reflexivity. Qed.

(** C7, amended: the connection button sends [usb_connect] exactly when the
    last connection state is [STATE_USB_DISCONNECTED], [STATE_UNINITIALIZED],
    [STATE_CONNECTION_FAILED], [STATE_DRIVER_MOCK] or absent (no state was
    signalled yet); it sends [usb_disconnect] exactly when that state is
    [STATE_CONNECTED] or [STATE_USB_CONNECTED]; in every other state it sends
    nothing.  The controller takes [usb_connect] from Uninitialized,
    Disconnected and ConnectionFailed (outside the busy lock) to Connecting and
    publishes that state; from any other connection state the request changes
    nothing. *)
Theorem C7_connection_button_command
    {K : Type} `{Ctx : Context K} `{Tr : Translation} :
  (forall (g : Gui) (k : K) (log : list string) (s0 : option string),
     last_pipe_state (g, (k, log)) = ((g, (k, log)), Returned s0) ->
     let after := sent (fst (on_button_start_usb (g, (k, log)))) in
     (after = line "usb_connect" :: log <-> In s0 connect_states) /\
     (after = line "usb_disconnect" :: log <-> In s0 disconnect_states) /\
     (after = log <-> ~ In s0 (connect_states ++ disconnect_states))) /\
  (forall (k : Kernel.t) (c : Kernel.Controller),
     Kernel.controller k = Some c ->
     Kernel.control c <> STATE_BUSY ->
     let k' := fst (Kernel.execute (line "usb_connect") k) in
     snd (Kernel.execute (line "usb_connect") k) = Returned tt /\
     (In (Kernel.connection c)
         [Kernel.Uninitialized; Kernel.Disconnected; Kernel.ConnectionFailed] ->
      Kernel.connection_of k' = Some Kernel.Connecting /\
      Kernel.last_report k' = Some (Kernel.connect, Kernel.Accepted) /\
      last_signal "pipe;state" k' = Some ["STATE_CONNECTING"]) /\
     (~ In (Kernel.connection c)
         [Kernel.Uninitialized; Kernel.Disconnected; Kernel.ConnectionFailed] ->
      Kernel.controller k' = Kernel.controller k /\
      Kernel.published k' = Kernel.published k /\
      Kernel.last_report k' = Some (Kernel.connect, Kernel.Acknowledged))).
Proof.
  split.
  - intros g k log s0 H after. subst after.
    rewrite (on_button_start_usb_sent g k log s0 H).
    rewrite in_app_iff, <- !py_in_In.
    pose proof line_connect_neq_disconnect as Hcd.
    pose proof (cons_neq_self (line "usb_connect") log) as Hc.
    pose proof (cons_neq_self (line "usb_disconnect") log) as Hd.
    destruct (py_in s0 connect_states) eqn:Ec.
    + rewrite (connect_disconnect_disjoint s0 Ec). intuition congruence.
    + destruct (py_in s0 disconnect_states) eqn:Ed; intuition congruence.
  - intros k c Hc Hb k'. subst k'.
    assert (Eb : ThreadState_eqb (Kernel.control c) STATE_BUSY = false).
    { destruct (ThreadState_eqb (Kernel.control c) STATE_BUSY) eqn:E; [| reflexivity].
      apply ThreadState_eqb_eq in E. contradiction. }
    unfold Kernel.execute.
    replace (Kernel.parse (line "usb_connect")) with (Some Kernel.connect) by reflexivity.
    rewrite Hc, Eb. cbn [andb Kernel.transition].
    destruct (Kernel.connection c) eqn:Econ; cbn [fst snd];
      (split; [reflexivity |]); split; intros Hin;
      try (exfalso; simpl in Hin; intuition discriminate);
      try (exfalso; apply Hin; simpl; tauto).
    all: unfold Kernel.connection_of, Kernel.last_report, Kernel.with_controller,
           Kernel.report, Kernel.announce; cbn;
         rewrite ?ThreadState_eqb_refl, ?Econ; cbn; auto.
Qed.

Lemma C7_connection_button_witness :
  (sent (fst (on_button_start_usb
                (gui_init, (Kernel.boot Kernel.Disconnected STATE_IDLE, [])))) =
   [line "usb_connect"] <-> In None connect_states) /\
  Kernel.connection_of
    (fst (Kernel.execute (line "usb_connect") (Kernel.boot Kernel.Disconnected STATE_IDLE))) =
  Some Kernel.Connecting.
Proof.
  split.
  - apply (proj1 (C7_connection_button_command (Ctx := kernel_context) (Tr := no_translation))
             gui_init (Kernel.boot Kernel.Disconnected STATE_IDLE) [] None eq_refl).
  - apply (proj2 (C7_connection_button_command (Ctx := kernel_context) (Tr := no_translation))
             (Kernel.boot Kernel.Disconnected STATE_IDLE) _ eq_refl).
    + discriminate.
    + simpl. tauto.
Defined.

(** ** The dispatcher of the controller *)


Lemma execute_busy (text : string) (cmd : Kernel.Command) (k : Kernel.t)
    (c : Kernel.Controller) :
  Kernel.parse text = Some cmd ->
  Kernel.controller k = Some c ->
  Kernel.control c = STATE_BUSY ->
  Kernel.emergency cmd = false ->
  Kernel.execute text k = (Kernel.report (cmd, Kernel.Ignored) k, Returned tt).
Proof.
  intros Hp Hc Hb He. unfold Kernel.execute. now rewrite Hp, Hc, Hb, He.
Qed.

Lemma execute_emergency (text : string) (cmd : Kernel.Command) (k : Kernel.t)
    (c : Kernel.Controller) :
  Kernel.parse text = Some cmd ->
  Kernel.controller k = Some c ->
  Kernel.emergency cmd = true ->
  let target := match Kernel.control c with
                | STATE_TERMINATE => STATE_IDLE
                | _ => STATE_TERMINATE
                end in
  Kernel.execute text k =
  (Kernel.with_controller (Kernel.set_control target c)
     [{| Kernel.topic := "pipe;thread"; Kernel.payload := Kernel.thread_payload target |}]
     (cmd, Kernel.Accepted) k, Returned tt) /\
  target <> Kernel.control c.
Proof.
  intros Hp Hc He target. unfold Kernel.execute. rewrite Hp, Hc, He.
  rewrite andb_false_r. subst target.
  destruct cmd; try discriminate;
    destruct (Kernel.control c) eqn:Ec; cbn [Kernel.transition];
    rewrite ?Ec; (split; [| discriminate]);
    unfold Kernel.announce; cbn; rewrite ?Ec; cbn;
    destruct (Kernel.connection c); reflexivity.
Qed.



Lemma try_pass_returns {K : Type} `{Ctx : Context K} (text : string)
    (g : Gui) (k k' : K) :
  context_call text k = (k', Returned tt) ->
  try_except (context text) AttributeError (ret tt) (g, k) = ((g, k'), Returned tt).
Proof.
  intros H. unfold try_except, context. cbn [fst snd]. now rewrite H.
Qed.

(** ** Emergency stop *)

Lemma on_menu_stop_kernel (g : Gui) (k : Kernel.t) :
  on_menu_stop (g, k) =
  ((g, fst (Kernel.execute (line "estop") k)), Returned tt) /\
  snd (Kernel.execute (line "estop") k) = Returned tt.
Proof.
  unfold on_menu_stop, try_except, context. cbn [fst snd context_call kernel_context].
  unfold Kernel.execute.
  replace (Kernel.parse (line "estop")) with (Some Kernel.estop) by reflexivity.
  destruct (Kernel.controller k) as [c |]; [| now cbn].
  cbn [Kernel.emergency negb]. rewrite andb_false_r.
  destruct (Kernel.transition Kernel.estop c); now cbn.
Qed.

(** C2: the Stop entry of the controller window and the Stop panel hand
    [estop] to the context in every state of the window and of the kernel,
    with no check of the control state.  With a controller attached, in every
    control state the call returns normally having moved the controller, in
    that same call, to another control state ([Terminate], or [Idle] from
    [Terminate]), reported as accepted and published on the control-state
    topic.  In particular [estop] leaves [Busy], where [pause],
    [usb_disconnect] and [usb_connect] leave the controller as it is and are
    reported as ignored. *)
Theorem C2_estop_preempts_busy :
  (forall (K : Type) (Ctx : Context K) (g : Gui) (k : K) (log : list string),
     sent (fst (on_menu_stop (g, (k, log)))) = line "estop" :: log) /\
  (forall (K : Type) (Ctx : Context K) (k : K) (log : list string),
     snd (fst (on_button_go_click (Some stop_action) (k, log))) = line "estop" :: log) /\
  (forall (g : Gui) (k : Kernel.t) (c : Kernel.Controller),
     Kernel.controller k = Some c ->
     let target := match Kernel.control c with
                   | STATE_TERMINATE => STATE_IDLE
                   | _ => STATE_TERMINATE
                   end in
     exists k',
       on_menu_stop (g, k) = ((g, k'), Returned tt) /\
       on_button_go_click (Some stop_action) k = (k', Returned tt) /\
       Kernel.control_of k' = Some target /\
       target <> Kernel.control c /\
       Kernel.last_report k' = Some (Kernel.estop, Kernel.Accepted) /\
       last_signal "pipe;thread" k' = Some [Kernel.thread_text target]) /\
  (forall (k : Kernel.t) (c : Kernel.Controller),
     Kernel.controller k = Some c ->
     Kernel.control c = STATE_BUSY ->
     Kernel.control_of (fst (Kernel.execute (line "estop") k)) = Some STATE_TERMINATE /\
     forall text,
       In text [line "pause"; line "usb_disconnect"; line "usb_connect"] ->
       exists cmd,
         Kernel.execute text k = (Kernel.report (cmd, Kernel.Ignored) k, Returned tt)).
Proof.
  split; [| split; [| split]].
  - intros K Ctx g k log. unfold on_menu_stop. apply sent_try_pass.
  - intros K Ctx k log. unfold on_button_go_click, stop_action.
    cbn [context_call recording_context fst snd].
    destruct (context_call (line "estop") k) as [k' r]. reflexivity.
  - intros g k c Hc target.
    destruct (execute_emergency (line "estop") Kernel.estop k c eq_refl Hc eq_refl)
      as [Hx Hne].
    fold target in Hx, Hne.
    exists (fst (Kernel.execute (line "estop") k)).
    split; [apply on_menu_stop_kernel |].
    split.
    { unfold on_button_go_click, stop_action. cbn [context_call kernel_context].
      now rewrite Hx. }
    rewrite Hx. cbn [fst]. repeat split; assumption.
  - intros k c Hc Hb. split.
    + destruct (execute_emergency (line "estop") Kernel.estop k c eq_refl Hc eq_refl)
        as [Hx _].
      rewrite Hx, Hb. reflexivity.
    + intros text [<- | [<- | [<- | []]]].
      * exists Kernel.pause. now apply (execute_busy _ _ k c).
      * exists Kernel.disconnect. now apply (execute_busy _ _ k c).
      * exists Kernel.connect. now apply (execute_busy _ _ k c).
Qed.

Lemma C2_estop_preempts_busy_witness :
  Kernel.control_of
    (fst (Kernel.execute (line "estop") (Kernel.boot Kernel.Connected STATE_BUSY))) =
  Some STATE_TERMINATE /\
  Kernel.control_of
    (fst (Kernel.execute (line "pause") (Kernel.boot Kernel.Connected STATE_BUSY))) =
  Some STATE_BUSY.
Proof.
  split.
  - apply (proj2 (proj2 (proj2 C2_estop_preempts_busy))
             (Kernel.boot Kernel.Connected STATE_BUSY) _ eq_refl eq_refl).
  - destruct (proj2 (proj2 (proj2 (proj2 C2_estop_preempts_busy))
                       (Kernel.boot Kernel.Connected STATE_BUSY) _ eq_refl eq_refl)
                (line "pause") (or_introl eq_refl)) as [cmd E].
    rewrite E. reflexivity.
Defined.

(** ** The busy lock *)

Section BusyLock.
Context {K : Type} `{Ctx : Context K} `{Tr : Translation}.

Lemma busy_locked_init : busy_locked gui_init.
Proof. split; [discriminate | discriminate]. Qed.

Lemma on_control_state_busy_locked (s : ThreadState) (g : Gui) :
  busy_locked g -> busy_locked (on_control_state s g).
Proof.
  intros [Ht Hb]. unfold on_control_state.
  destruct (match last_control_state g with
            | Some last => ThreadState_eqb last s
            | None => false
            end); [now split |].
  cbn [text_controller_status set_last_control_state].
  destruct (text_controller_status g) as [txt |]; [| contradiction].
  destruct s; split; cbn; try discriminate; auto.
Qed.

Lemma control_states_busy_locked (states : list ThreadState) :
  forall g, busy_locked g -> busy_locked (control_states states g).
Proof.
  induction states as [| s rest IH]; intros g H; [exact H |].
  apply IH, on_control_state_busy_locked, H.
Qed.

Lemma control_states_snoc (states : list ThreadState) (s : ThreadState) (g : Gui) :
  control_states (states ++ [s]) g = on_control_state s (control_states states g).
Proof. unfold control_states. now rewrite fold_left_app. Qed.

Lemma on_control_state_enables (s : ThreadState) (g : Gui) :
  Enabled (button_controller_control g) = false ->
  Enabled (button_controller_control (on_control_state s g)) = true ->
  s <> STATE_BUSY /\ last_control_state g <> Some s.
Proof.
  intros Hoff Hon. split.
  - intros ->. revert Hon. unfold on_control_state.
    destruct (match last_control_state g with
              | Some last => ThreadState_eqb last STATE_BUSY
              | None => false
              end); [congruence |].
    cbn [text_controller_status set_last_control_state].
    destruct (text_controller_status g); cbn; congruence.
  - intros Hl. rewrite (on_control_state_same s g Hl) in Hon. congruence.
Qed.

End BusyLock.

Lemma feedback_report (f : Kernel.Feedback) (r : Kernel.Command * Kernel.Report)
    (k : Kernel.t) :
  Kernel.feedback f (Kernel.report r k) = Kernel.report r (Kernel.feedback f k).
Proof.
  unfold Kernel.feedback, Kernel.report. cbn.
  destruct (Kernel.controller k) as [c |] eqn:E; [| cbn; now rewrite E].
  destruct (Kernel.react f c); cbn; rewrite ?E; reflexivity.
Qed.

Lemma on_control_state_device_connect {K : Type} `{Ctx : Context K} `{Tr : Translation}
    (s : ThreadState) (g : Gui) :
  button_device_connect (on_control_state s g) = button_device_connect g.
Proof.
  unfold on_control_state.
  destruct (match last_control_state g with
            | Some last => ThreadState_eqb last s
            | None => false
            end); [reflexivity |].
  cbn [text_controller_status set_last_control_state].
  destruct (text_controller_status g); [destruct s |]; reflexivity.
Qed.

Lemma control_states_device_connect {K : Type} `{Ctx : Context K} `{Tr : Translation}
    (states : list ThreadState) :
  forall g, button_device_connect (control_states states g) = button_device_connect g.
Proof.
  induction states as [| s rest IH]; intros g; [reflexivity |].
  cbn [control_states fold_left]. fold (control_states rest (on_control_state s g)).
  rewrite IH. apply on_control_state_device_connect.
Qed.

Lemma stimulate_busy (st : Stimulus) (k : Kernel.t) (c : Kernel.Controller) :
  Kernel.controller k = Some c ->
  Kernel.control c = STATE_BUSY ->
  if clears_busy st
  then Kernel.control_of (stimulate st k) <> Some STATE_BUSY
  else exists c', Kernel.controller (stimulate st k) = Some c' /\
                  Kernel.control c' = STATE_BUSY.
Proof.
  intros Hc Hb. destruct st as [text | f]; cbn [clears_busy stimulate].
  - destruct (Kernel.parse text) as [cmd |] eqn:Hp.
    + destruct (Kernel.emergency cmd) eqn:He.
      * destruct (execute_emergency text cmd k c Hp Hc He) as [Hx _].
        rewrite Hx, Hb. cbn. discriminate.
      * rewrite (execute_busy text cmd k c Hp Hc Hb He). exists c. now split.
    + unfold Kernel.execute. rewrite Hp. exists c. now split.
  - unfold Kernel.control_of, Kernel.feedback. rewrite Hc.
    unfold Kernel.react. rewrite Hb.
    destruct f, (Kernel.connection c); cbn; rewrite ?Hc;
      try discriminate; try (exists c; now split);
      eexists; split; try reflexivity; exact Hb.
Qed.

Lemma stimulate_all_busy (sts : list Stimulus) :
  forall (k : Kernel.t) (c : Kernel.Controller),
    Kernel.controller k = Some c ->
    Kernel.control c = STATE_BUSY ->
    forallb (fun st => negb (clears_busy st)) sts = true ->
    Kernel.control_of (stimulate_all sts k) = Some STATE_BUSY.
Proof.
  induction sts as [| st rest IH]; intros k c Hc Hb Hall.
  - cbn. unfold Kernel.control_of. now rewrite Hc, <- Hb.
  - cbn [forallb] in Hall. apply andb_prop in Hall as [Hst Hrest].
    pose proof (stimulate_busy st k c Hc Hb) as H.
    destruct (clears_busy st); [discriminate |].
    destruct H as (c' & Hc' & Hb').
    cbn [stimulate_all fold_left]. exact (IH _ c' Hc' Hb' Hrest).
Qed.

(** C3, as stated, fails: with the controller [Busy] and the transmission
    still in flight, the manual request [estop] is accepted and takes the
    controller out of [Busy] (to [Terminate]).  The window sends it in every
    state: its Busy branch disables the controller button only. *)
Lemma C3_emergency_stop_is_accepted_while_busy :
  Kernel.control_of (Kernel.boot Kernel.Connected STATE_BUSY) = Some STATE_BUSY /\
  Kernel.last_report
    (fst (Kernel.execute (line "estop") (Kernel.boot Kernel.Connected STATE_BUSY))) =
  Some (Kernel.estop, Kernel.Accepted) /\
  Kernel.control_of
    (fst (Kernel.execute (line "estop") (Kernel.boot Kernel.Connected STATE_BUSY))) =
  Some STATE_TERMINATE /\
  on_menu_stop (on_control_state (K := Kernel.t) (Tr := no_translation) STATE_BUSY gui_init,
                Kernel.boot Kernel.Connected STATE_BUSY) =
  ((on_control_state (K := Kernel.t) (Tr := no_translation) STATE_BUSY gui_init,
    fst (Kernel.execute (line "estop") (Kernel.boot Kernel.Connected STATE_BUSY))),
   Returned tt).
Proof. repeat split. Qed.

(** C3, amended: on the window, whatever control states were notified
    before, once the last notification is [STATE_BUSY] the controller button is
    disabled and labelled [LOCKED]; a click on it sends nothing and raises
    nothing, and only a notification of a state other than [STATE_BUSY] and
    other than the last one seen enables it again.  The window locks nothing
    else: the connection button stays enabled and the Pause and Stop entries
    still hand [pause] and [estop] to the context.  In the controller, while
    [Busy], every request other than the emergency stop ([abort]/[estop]) -
    [usb_connect], [usb_disconnect], [pause], and also [resume], [start] and
    [hold] - returns normally, is reported as ignored and changes neither the
    controller nor what was published nor the queued work; it is not kept for
    later (after the transmission completes the controller is where it would
    be without the request); through the window's Pause entry, the request
    leaves the window unchanged.  The lock clears exactly when the
    transmission in flight completes or an emergency stop pre-empts it: no
    other hardware feedback and no other console line leaves [Busy], at one
    step or over any sequence of them. *)
Theorem C3_busy_rejects_manual_requests :
  (forall (K : Type) (Ctx : Context K) (Tr : Translation)
          (states : list ThreadState) (k : K),
     let g := control_states (states ++ [STATE_BUSY]) gui_init in
     Enabled (button_controller_control g) = false /\
     Label (button_controller_control g) = tr "LOCKED" /\
     click_controller_control (g, k) = ((g, k), Returned tt)) /\
  (forall (K : Type) (Ctx : Context K) (Tr : Translation)
          (s : ThreadState) (g : Gui),
     Enabled (button_controller_control g) = false ->
     Enabled (button_controller_control (on_control_state s g)) = true ->
     s <> STATE_BUSY /\ last_control_state g <> Some s) /\
  (forall (K : Type) (Ctx : Context K) (Tr : Translation)
          (states : list ThreadState) (k : K) (log : list string),
     let g := control_states (states ++ [STATE_BUSY]) gui_init in
     Enabled (button_device_connect g) = true /\
     sent (fst (on_menu_pause (g, (k, log)))) = line "pause" :: log /\
     sent (fst (on_menu_stop (g, (k, log)))) = line "estop" :: log) /\
  (forall (k : Kernel.t) (c : Kernel.Controller),
     Kernel.controller k = Some c ->
     Kernel.control c = STATE_BUSY ->
     (forall text cmd,
        Kernel.parse text = Some cmd ->
        Kernel.emergency cmd = false ->
        Kernel.execute text k = (Kernel.report (cmd, Kernel.Ignored) k, Returned tt) /\
        Kernel.controller (fst (Kernel.execute text k)) = Kernel.controller k /\
        Kernel.published (fst (Kernel.execute text k)) = Kernel.published k /\
        Kernel.main_jobs (fst (Kernel.execute text k)) = Kernel.main_jobs k /\
        Kernel.feedback Kernel.transmission_complete (fst (Kernel.execute text k)) =
        Kernel.report (cmd, Kernel.Ignored)
          (Kernel.feedback Kernel.transmission_complete k)) /\
     (forall text cmd,
        In (text, cmd) [(line "usb_connect", Kernel.connect);
                        (line "usb_disconnect", Kernel.disconnect);
                        (line "pause", Kernel.pause);
                        (line "resume", Kernel.resume);
                        (line "start", Kernel.start);
                        (line "hold", Kernel.hold)] ->
        Kernel.parse text = Some cmd /\ Kernel.emergency cmd = false) /\
     (forall g : Gui,
        on_menu_pause (g, k) =
        ((g, Kernel.report (Kernel.pause, Kernel.Ignored) k), Returned tt)) /\
     (exists s,
        Kernel.control_of (Kernel.feedback Kernel.transmission_complete k) = Some s /\
        s <> STATE_BUSY) /\
     (forall st : Stimulus,
        Kernel.control_of (stimulate st k) <> Some STATE_BUSY <-> clears_busy st = true) /\
     (forall sts : list Stimulus,
        forallb (fun st => negb (clears_busy st)) sts = true ->
        Kernel.control_of (stimulate_all sts k) = Some STATE_BUSY)).
Proof.
  split; [| split; [| split]].
  - intros K Ctx Tr states k g.
    assert (Hinv : busy_locked g).
    { apply control_states_busy_locked, busy_locked_init. }
    assert (Hlast : last_control_state g = Some STATE_BUSY).
    { subst g. rewrite control_states_snoc. apply on_control_state_last. }
    destruct Hinv as [_ Hb]. destruct (Hb Hlast) as [Hoff Hlab].
    repeat split; try assumption.
    unfold click_controller_control. cbn [fst]. now rewrite Hoff.
  - intros K Ctx Tr s g. apply on_control_state_enables.
  - intros K Ctx Tr states k log g. split; [| split].
    + subst g. now rewrite control_states_device_connect.
    + unfold on_menu_pause. apply sent_try_pass.
    + unfold on_menu_stop. apply sent_try_pass.
  - intros k c Hc Hb. split; [| split; [| split; [| split; [| split]]]].
    + intros text cmd Hp He.
      rewrite (execute_busy text cmd k c Hp Hc Hb He). cbn [fst].
      repeat split. apply feedback_report.
    + intros text cmd Hin. simpl in Hin.
      destruct Hin as [E | [E | [E | [E | [E | [E | []]]]]]];
        injection E as <- <-; split; reflexivity.
    + intros g. apply try_pass_returns. cbn [context_call kernel_context].
      now apply (execute_busy _ _ k c).
    + exists STATE_ACTIVE. split; [| discriminate].
      unfold Kernel.control_of, Kernel.feedback. rewrite Hc.
      unfold Kernel.react. rewrite Hb.
      destruct (Kernel.connection c); reflexivity.
    + intros st. pose proof (stimulate_busy st k c Hc Hb) as H.
      destruct (clears_busy st).
      * tauto.
      * destruct H as (c' & Hc' & Hb'). split; [| discriminate].
        intros Hn. exfalso. apply Hn. unfold Kernel.control_of.
        now rewrite Hc', <- Hb'.
    + intros sts. apply (stimulate_all_busy sts k c Hc Hb).
Qed.

Lemma C3_busy_rejects_witness :
  Kernel.execute (line "pause") (Kernel.boot Kernel.Connected STATE_BUSY) =
  (Kernel.report (Kernel.pause, Kernel.Ignored) (Kernel.boot Kernel.Connected STATE_BUSY),
   Returned tt).
Proof.
  apply (proj1 (proj2 (proj2 (proj2 C3_busy_rejects_manual_requests))
                  (Kernel.boot Kernel.Connected STATE_BUSY) _ eq_refl eq_refl)
           (line "pause") Kernel.pause eq_refl eq_refl).
Defined.

(** ** A refused connection *)



Section StartUsb.
Context {K : Type} `{Ctx : Context K} `{Tr : Translation}.



End StartUsb.






(** ** Commands that do not apply *)

Section MenuGuard.
Context {K : Type} `{Ctx : Context K} `{Tr : Translation}.


End MenuGuard.





(** ** The timer and the scheduler *)

(** C8: [wxMeerK40t.__init__] binds the timer event to the kernel's
    [scheduler_main], clears [scheduler_handles_main_thread_jobs] and starts the
    timer with the interval 50, so that every tick of the timer runs
    [scheduler_main].  In the kernel, from then on a pass of the kernel's own
    scheduler thread leaves the queued main-thread work where it is, console
    commands, hardware feedback and scheduling run none of it, and a tick of
    the timer runs all of it in order and leaves the queue empty. *)
Theorem C8_timer_drives_scheduler :
  (forall (K : Type) (Sch : Scheduler K) (k : K),
     let a := fst (wxMeerK40t_init k) in
     Interval (timer a) = Some 50 /\
     Running (timer a) = true /\
     EVT_TIMER a = Some scheduler_main /\
     snd (wxMeerK40t_init k) = set_scheduler_handles_main_thread_jobs false k /\
     forall k0 : K, timer_tick a k0 = scheduler_main k0) /\
  (forall k : Kernel.t,
     let a := fst (wxMeerK40t_init k) in
     let k1 := snd (wxMeerK40t_init k) in
     Kernel.scheduler_handles_main_thread_jobs k1 = false /\
     Kernel.main_jobs k1 = Kernel.main_jobs k /\
     Kernel.ran k1 = Kernel.ran k) /\
  (forall k : Kernel.t,
     Kernel.scheduler_handles_main_thread_jobs k = false ->
     let a := fst (wxMeerK40t_init k) in
     Kernel.scheduler_thread_pass k = k /\
     (forall text,
        Kernel.ran (fst (Kernel.execute text k)) = Kernel.ran k /\
        Kernel.main_jobs (fst (Kernel.execute text k)) = Kernel.main_jobs k /\
        Kernel.scheduler_handles_main_thread_jobs (fst (Kernel.execute text k)) = false) /\
     (forall f,
        Kernel.ran (Kernel.feedback f k) = Kernel.ran k /\
        Kernel.main_jobs (Kernel.feedback f k) = Kernel.main_jobs k /\
        Kernel.scheduler_handles_main_thread_jobs (Kernel.feedback f k) = false) /\
     (forall job,
        Kernel.ran (Kernel.schedule job k) = Kernel.ran k /\
        Kernel.main_jobs (Kernel.schedule job k) = (Kernel.main_jobs k ++ [job])%list /\
        Kernel.scheduler_handles_main_thread_jobs (Kernel.schedule job k) = false) /\
     Kernel.main_jobs (timer_tick a k) = [] /\
     Kernel.ran (timer_tick a k) = (Kernel.ran k ++ Kernel.main_jobs k)%list /\
     Kernel.scheduler_handles_main_thread_jobs (timer_tick a k) = false).
Proof.
  split; [| split].
  - intros K Sch k a. subst a. cbn. repeat split.
  - intros k a k1. subst a k1. cbn. repeat split.
  - intros k Hflag a. subst a.
    split; [unfold Kernel.scheduler_thread_pass; now rewrite Hflag |].
    split.
    { intros text. unfold Kernel.execute.
      destruct (Kernel.parse text) as [cmd |]; [| now cbn].
      destruct (Kernel.controller k) as [c |]; [| now cbn].
      destruct (ThreadState_eqb (Kernel.control c) STATE_BUSY && negb (Kernel.emergency cmd));
        [now cbn |].
      destruct (Kernel.transition cmd c); now cbn. }
    split.
    { intros f. unfold Kernel.feedback.
      destruct (Kernel.controller k) as [c |]; [| now repeat split].
      destruct (Kernel.react f c); now cbn. }
    split; [intros job; now cbn |].
    cbn. now repeat split.
Qed.

Lemma C8_timer_drives_scheduler_witness :
  Kernel.ran
    (timer_tick (fst (wxMeerK40t_init (Kernel.boot Kernel.Uninitialized STATE_INITIALIZE)))
       (Kernel.schedule 2%nat (Kernel.schedule 1%nat
          (snd (wxMeerK40t_init (Kernel.boot Kernel.Uninitialized STATE_INITIALIZE)))))) =
  [1%nat; 2%nat].
Proof.
  pose proof (proj2 (proj2 C8_timer_drives_scheduler)
                (Kernel.schedule 2%nat (Kernel.schedule 1%nat
                   (snd (wxMeerK40t_init (Kernel.boot Kernel.Uninitialized STATE_INITIALIZE)))))
                eq_refl) as H.
  cbv zeta in H.
  destruct H as (_ & _ & _ & _ & _ & H & _).
  exact H.
Defined.

(** ** PointNode: bounds and the point-editing interface *)

Section PointNodeFacts.
Context `{Svg : SvgElements}.

Lemma rect_of_degenerate (p : Point) : degenerate (rect_of p).
Proof. split; reflexivity. Qed.

Lemma bounds_dirty (n : PointNode) (m : Matrix) (p : Point) :
  matrix n = Some m ->
  point n = Some p ->
  _bounds_dirty n = true ->
  bounds n =
  ({| point := Some (snd (transform_point m p)); matrix := matrix n;
      settings := settings n; fill := fill n; stroke := stroke n;
      stroke_width := stroke_width n; lock := lock n; _formatter := _formatter n;
      _bounds := Some (rect_of (fst (transform_point m p))); _bounds_dirty := false |},
   Returned (Some (rect_of (fst (transform_point m p))))).
Proof.
  intros Hm Hp Hd. unfold bounds. rewrite Hd, Hm, Hp.
  destruct (transform_point m p) as [q p']. reflexivity.
Qed.

Lemma bounds_clean (n : PointNode) :
  _bounds_dirty n = false -> bounds n = (n, Returned (_bounds n)).
Proof. intros Hd. unfold bounds. now rewrite Hd. Qed.

Lemma edits_id (es : list Edit) (n : PointNode) : edits es n = n.
Proof.
  induction es as [| e rest IH]; [reflexivity |].
  simpl. destruct e; exact IH.
Qed.

End PointNodeFacts.

(** C9: for a PointNode with matrix [m] and point [p] set, reading [bounds]
    while the bounds are dirty computes [(x, y) = m.transform_point(p)], stores
    and returns the rectangle [(x, y, x, y)] and clears the dirty flag, so that
    a second reading returns the stored rectangle and changes nothing; while
    the bounds are clean a reading returns the stored value without computing;
    [preprocess] multiplies the matrix and marks the bounds dirty, so that the
    next reading computes again.  On every node whose clean cache holds a
    degenerate rectangle (which every reading and [preprocess] keep true) the
    rectangle returned has its minimum corner equal to its maximum corner. *)
Theorem C9_bounds_is_cached_degenerate_rectangle `{Svg : SvgElements} :
  (forall (n : PointNode) (m : Matrix) (p : Point),
     matrix n = Some m -> point n = Some p -> _bounds_dirty n = true ->
     let b := rect_of (fst (transform_point m p)) in
     exists n',
       bounds n = (n', Returned (Some b)) /\
       _bounds n' = Some b /\
       _bounds_dirty n' = false /\
       matrix n' = Some m /\
       bounds n' = (n', Returned (Some b))) /\
  (forall n : PointNode,
     _bounds_dirty n = false -> bounds n = (n, Returned (_bounds n))) /\
  (forall (n : PointNode) (m m' : Matrix),
     matrix n = Some m ->
     exists n',
       preprocess m' n = (n', Returned tt) /\
       _bounds_dirty n' = true /\
       matrix n' = Some (imul m m') /\
       point n' = point n /\
       cache_ok n') /\
  (forall (n : PointNode) (m : Matrix) (p : Point),
     matrix n = Some m -> point n = Some p -> cache_ok n ->
     exists n' b,
       bounds n = (n', Returned (Some b)) /\
       xmin b = xmax b /\ ymin b = ymax b /\
       cache_ok n').
Proof.
  split; [| split; [| split]].
  - intros n m p Hm Hp Hd b. subst b.
    eexists. split; [apply (bounds_dirty n m p Hm Hp Hd) |].
    cbn. rewrite Hm. repeat split.
  - intros n. apply bounds_clean.
  - intros n m m' Hm. unfold preprocess. rewrite Hm.
    eexists. split; [reflexivity |]. cbn. repeat split.
    intros H. discriminate H.
  - intros n m p Hm Hp Hok.
    destruct (_bounds_dirty n) eqn:Hd.
    + rewrite (bounds_dirty n m p Hm Hp Hd).
      do 2 eexists. split; [reflexivity |].
      split; [reflexivity |]. split; [reflexivity |].
      intros _. cbn. eexists. split; [reflexivity |]. apply rect_of_degenerate.
    + rewrite (bounds_clean n Hd).
      destruct (Hok Hd) as [b [Hb [Hx Hy]]]. rewrite Hb.
      exists n, b. repeat split; assumption.
Qed.

Lemma C9_bounds_witness :
  bounds example_node =
  (fst (bounds example_node),
   Returned (Some {| xmin := 13; ymin := 24; xmax := 13; ymax := 24 |})).
Proof.
  destruct (proj1 (C9_bounds_is_cached_degenerate_rectangle (Svg := Z_geometry))
              example_node _ (3, 4) eq_refl eq_refl eq_refl) as [n' [H _]].
  rewrite H. reflexivity.
Defined.

(** C10: [update_point] and [add_point] return [False] for all arguments and
    leave the node as it is, field by field; so does any sequence of such
    calls, and the bounds read afterwards are those read before. *)
Theorem C10_point_editing_changes_nothing `{Svg : SvgElements} :
  (forall (n : PointNode) (index : Z) (pt : Point),
     update_point index pt n = (n, Returned false)) /\
  (forall (n : PointNode) (pt : Point) (index : option Z),
     add_point pt index n = (n, Returned false)) /\
  (forall (es : list Edit) (n : PointNode),
     edits es n = n /\ bounds (edits es n) = bounds n).
Proof.
  split; [| split].
  - intros n index pt. reflexivity.
  - intros n pt index. reflexivity.
  - intros es n. now rewrite edits_id.
Qed.

(** ** Runs on concrete inputs *)

Example str_42 : str 42 = "42".
Proof. reflexivity. Qed.

Example buffer_updates_3_0_7 :
  buffer_max (buffer_updates [3; 0; 7] gui_init) = 7 /\
  snd (on_buffer_update 3 gui_init) = Raised AttributeError.
Proof. split; reflexivity. Qed.

Example buffer_update_with_gauge :
  let g := set_gauge_buffer {| Range := 1; Value := 0 |}
             (set_text_buffer_length "" gui_init) in
  let g' := fst (on_buffer_update 5 (fst (on_buffer_update 9 g))) in
  buffer_max g' = 9 /\
  text_buffer_length g' = Some "5" /\
  gauge_buffer g' = Some {| Range := 9; Value := 5 |}.
Proof. repeat split. Qed.

Example busy_then_active_rebinds :
  let g := control_states (K := Kernel.t) [STATE_IDLE; STATE_BUSY; STATE_BUSY; STATE_ACTIVE]
             gui_init in
  control_bindings g =
    [send [line "hold"]; send [line "start"; line "hold"]; on_button_start_controller] /\
  Enabled (button_controller_control g) = true /\
  Label (button_controller_control g) = "Pause Controller".
Proof. repeat split. Qed.

Example connect_then_disconnect :
  let k0 := Kernel.boot Kernel.Uninitialized STATE_IDLE in
  let k1 := fst (Kernel.execute (line "usb_connect") k0) in
  let k2 := Kernel.feedback Kernel.connection_established k1 in
  let k3 := fst (Kernel.execute (line "usb_disconnect") k2) in
  let k4 := Kernel.feedback Kernel.teardown_complete k3 in
  map Kernel.connection_of [k1; k2; k3; k4] =
  map Some [Kernel.Connecting; Kernel.Connected; Kernel.Disconnecting; Kernel.Disconnected].
Proof. reflexivity. Qed.

Example unknown_command :
  Kernel.execute (line "unknown_cmd") (Kernel.boot Kernel.Connected STATE_IDLE) =
  (Kernel.boot Kernel.Connected STATE_IDLE, Raised CommandSyntaxError).
Proof. reflexivity. Qed.

(** ** ActionPanel: the size of the icon *)

Lemma resize_button_best_size_small (w h : Z) :
  Z.min w h <= 20 -> resize_button_best_size w h = 20.
Proof.
  unfold resize_button_best_size. cbv zeta.
  generalize (Z.min w h). intros m Hm.
  Z.quot_rem_to_equations. lia.
Qed.

Lemma resize_button_best_size_large (w h : Z) :
  20 <= Z.min w h ->
  resize_button_best_size w h = Z.min w h - resize_button_room w h /\
  0 <= resize_button_room w h /\
  23 * Z.min w h <= 25 * resize_button_best_size w h /\
  resize_button_best_size w h <= Z.min w h.
Proof.
  unfold resize_button_best_size, resize_button_room. cbv zeta.
  generalize (Z.min w h). intros m Hm.
  Z.quot_rem_to_equations. lia.
Qed.

(** X1: the icon of an action button is never asked smaller than 20 pixels;
    a button whose smaller side [m] is at most 20 gets exactly 20 (so the icon
    may exceed the button); for [m >= 20] the icon is [m] less a margin of two
    pixels for every full 25 pixels, which is at least 23/25 of [m] and at
    most [m]; one pixel more on the button changes the icon by at most one
    pixel, and can make it smaller (from 24 to 25 the icon goes from 24 to
    23); and both bitmaps asked for (normal and focused) have that size and a
    buffer of 2. *)
Theorem X1_resize_button_icon_size :
  (forall w h, 20 <= resize_button_best_size w h) /\
  (forall w h, Z.min w h <= 20 -> resize_button_best_size w h = 20) /\
  (forall w h,
     20 <= Z.min w h ->
     resize_button_best_size w h = Z.min w h - resize_button_room w h /\
     0 <= resize_button_room w h /\
     23 * Z.min w h <= 25 * resize_button_best_size w h /\
     resize_button_best_size w h <= Z.min w h) /\
  (forall w h w' h',
     Z.min w' h' = Z.min w h + 1 ->
     resize_button_best_size w h - 1 <= resize_button_best_size w' h' <=
     resize_button_best_size w h + 1) /\
  resize_button_best_size 25 25 < resize_button_best_size 24 24 /\
  (forall fg w h,
     request_resize (fst (resize_button fg w h)) = resize_button_best_size w h /\
     request_resize (snd (resize_button fg w h)) = resize_button_best_size w h /\
     request_buffer (fst (resize_button fg w h)) = 2 /\
     request_buffer (snd (resize_button fg w h)) = 2 /\
     request_color (fst (resize_button fg w h)) = fg /\
     request_color (snd (resize_button fg w h)) = None).
Proof.
  split; [| split; [| split; [| split; [| split]]]].
  - intros w h. unfold resize_button_best_size. cbv zeta. lia.
  - exact resize_button_best_size_small.
  - exact resize_button_best_size_large.
  - intros w h w' h'. unfold resize_button_best_size. cbv zeta.
    generalize (Z.min w h), (Z.min w' h'). intros m m' Hm.
    Z.quot_rem_to_equations. lia.
  - reflexivity.
  - intros fg w h. repeat split.
Qed.

Lemma X1_resize_button_witness :
  resize_button_best_size 98 60 = 56 /\ resize_button_best_size 40 12 = 20.
Proof.
  split.
  - destruct (proj1 (proj2 (proj2 X1_resize_button_icon_size)) 98 60) as [H _].
    + vm_compute. discriminate.
    + rewrite H. reflexivity.
  - apply (proj1 (proj2 X1_resize_button_icon_size) 40 12). vm_compute. discriminate.
Defined.

(** ** GoPanel: a job needs a deliberate mouse click *)

Section GoPanelFacts.
Context {K : Type} `{Ctx : Context K} `{GK : GoKernel K} `{Tr : Translation} `{Clk : Clock}.

Lemma go_click_sent (t t' : Time) (p : GoPanel) (k : K) (log : list string) :
  let w' := fst (GoPanel_on_button_go_click t t' (p, (k, log))) in
  (snd (snd w') = log /\ (armed (fst w') <= armed p)%nat) \/
  (snd (snd w') = go_job :: log /\ armed p = 1%nat /\ armed (fst w') = 0%nat).
Proof.
  unfold GoPanel_on_button_go_click, armed. cbn [fst snd].
  destruct (within_half_second t (click_time p));
    [left; cbn; split; [reflexivity | lia] |].
  destruct (was_mouse p) eqn:Hm; cbn [negb];
    [| left; cbn; rewrite Hm; cbn; split; [reflexivity | lia]].
  destruct (button_go_Enabled p) eqn:He; cbn [negb];
    [| left; cbn; rewrite Hm, He; cbn; split; [reflexivity | lia]].
  right. cbn [context_call recording_context fst snd busyinfo_start recording_go_kernel].
  destruct (context_call go_job (busyinfo_start (tr "Processing and sending...") k))
    as [k2 [[] | e]]; cbn; rewrite ?Hm, ?He, ?andb_false_r; cbn; auto.
Qed.

Lemma go_event_sent (e : GoEvent) (p : GoPanel) (k : K) (log : list string) :
  let w' := go_event e (p, (k, log)) in
  let downs := if is_MouseDown e then 1%nat else 0%nat in
  (List.length (snd (snd w')) + armed (fst w') <= List.length log + downs + armed p)%nat.
Proof.
  destruct e as [| t t']; cbn [go_event is_MouseDown fst snd].
  - unfold armed, on_mouse_down. cbn.
    destruct (button_go_Enabled p), (was_mouse p); cbn; lia.
  - destruct (go_click_sent t t' p k log) as [[-> H] | [-> [H1 H2]]]; cbn [List.length]; lia.
Qed.

Lemma go_events_sent (es : list GoEvent) :
  forall (p : GoPanel) (k : K) (log : list string),
    let w' := go_events es (p, (k, log)) in
    (List.length (snd (snd w')) + armed (fst w') <=
     List.length log + List.length (filter is_MouseDown es) + armed p)%nat.
Proof.
  induction es as [| e rest IH]; intros p k log; cbn [go_events fold_left].
  - cbn. lia.
  - pose proof (go_event_sent e p k log) as He. cbv zeta in He.
    destruct (go_event e (p, (k, log))) as [p1 [k1 log1]] eqn:E.
    cbn [fst snd] in He.
    specialize (IH p1 k1 log1). cbv zeta in IH. unfold go_events in IH.
    cbn [filter]. destruct (is_MouseDown e); cbn [List.length]; lia.
Qed.

Lemma go_event_disabled (e : GoEvent) (p : GoPanel) (k : K) (log : list string) :
  button_go_Enabled p = false ->
  button_go_Enabled (fst (go_event e (p, (k, log)))) = false /\
  snd (snd (go_event e (p, (k, log)))) = log.
Proof.
  intros Hd. destruct e as [| t t']; cbn [go_event fst snd].
  - now split.
  - unfold GoPanel_on_button_go_click. cbn [fst snd].
    destruct (within_half_second t (click_time p)); [now split |].
    destruct (was_mouse p); cbn [negb]; [| now split].
    rewrite Hd. now split.
Qed.

Lemma go_events_disabled (es : list GoEvent) :
  forall (p : GoPanel) (k : K) (log : list string),
    button_go_Enabled p = false ->
    button_go_Enabled (fst (go_events es (p, (k, log)))) = false /\
    snd (snd (go_events es (p, (k, log)))) = log.
Proof.
  induction es as [| e rest IH]; intros p k log Hd; cbn [go_events fold_left].
  - now split.
  - destruct (go_event_disabled e p k log Hd) as [H1 H2].
    destruct (go_event e (p, (k, log))) as [p1 [k1 log1]].
    cbn [fst snd] in H1, H2. subst log1. apply (IH p1 k1 log H1).
Qed.

End GoPanelFacts.

(** X2: over any sequence of mouse-down and button events on the Go button,
    starting from a new panel, the job is sent at most once for each time the
    mouse went down on the button: button events that no mouse-down preceded
    (the keyboard) send nothing, and neither does a second button event after
    one mouse-down.  In general the number of jobs sent, plus one if the panel
    is still armed, is bounded by the mouse-downs plus one if it was armed
    before. *)
Theorem X2_go_needs_a_mouse_down
    {K : Type} `{Ctx : Context K} `{GK : GoKernel K} `{Tr : Translation} `{Clk : Clock} :
  (forall (es : list GoEvent) (p : GoPanel) (k : K) (log : list string),
     let w' := go_events es (p, (k, log)) in
     (List.length (snd (snd w')) + armed (fst w') <=
      List.length log + List.length (filter is_MouseDown es) + armed p)%nat) /\
  (forall (es : list GoEvent) (k : K) (log : list string),
     (List.length (snd (snd (go_events es (GoPanel_init, (k, log))))) <=
      List.length log + List.length (filter is_MouseDown es))%nat) /\
  (forall (t t' : Time) (p : GoPanel) (k : K) (log : list string),
     let after := snd (snd (fst (GoPanel_on_button_go_click t t' (p, (k, log))))) in
     after = log \/ after = go_job :: log).
Proof.
  split; [| split].
  - intros es p k log. apply go_events_sent.
  - intros es k log.
    pose proof (go_events_sent es GoPanel_init k log) as H. cbv zeta in H.
    unfold armed at 2 in H. cbn in H. lia.
  - intros t t' p k log after. subst after.
    destruct (go_click_sent t t' p k log) as [[H _] | [H _]]; auto.
Qed.

(** X3: when the job sent by the Go button raises, the exception leaves the
    handler, the button stays disabled ([Enable(True)] is not reached), and
    from then on no sequence of mouse-down and button events sends anything
    or enables the button again. *)
Theorem X3_go_stays_disabled_after_a_failed_job
    {K : Type} `{Ctx : Context K} `{GK : GoKernel K} `{Tr : Translation} `{Clk : Clock} :
  forall (t t' : Time) (p : GoPanel) (k k2 : K) (log : list string) (e : Exn),
    within_half_second t (click_time p) = false ->
    was_mouse p = true ->
    button_go_Enabled p = true ->
    context_call go_job (busyinfo_start (tr "Processing and sending...") k) =
      (k2, Raised e) ->
    let r := GoPanel_on_button_go_click t t' (p, (k, log)) in
    snd r = Raised e /\
    snd (snd (fst r)) = go_job :: log /\
    button_go_Enabled (fst (fst r)) = false /\
    forall es : list GoEvent,
      button_go_Enabled (fst (go_events es (fst r))) = false /\
      snd (snd (go_events es (fst r))) = go_job :: log.
Proof.
  intros t t' p k k2 log e Ht Hm He Hc r. subst r.
  unfold GoPanel_on_button_go_click. cbn [fst snd].
  rewrite Ht, Hm, He. cbn [negb].
  cbn [context_call recording_context fst snd busyinfo_start recording_go_kernel].
  rewrite Hc. cbn [fst snd go_Enable button_go_Enabled].
  repeat split.
  all: intros; apply (go_events_disabled es); reflexivity.
Qed.

Lemma X3_go_stays_disabled_witness :
  snd (GoPanel_on_button_go_click (Ctx := recording_context (Ctx := unplugged_context))
         (Clk := millisecond_clock) 1000 1200
         (on_mouse_down GoPanel_init, (tt, []))) = Raised AttributeError /\
  button_go_Enabled
    (fst (go_events (Ctx := recording_context (Ctx := unplugged_context))
            [@MouseDown millisecond_clock; @ButtonEvent millisecond_clock 5000 5100]
            (fst (GoPanel_on_button_go_click
                    (Ctx := recording_context (Ctx := unplugged_context))
                    (Clk := millisecond_clock) 1000 1200
                    (on_mouse_down GoPanel_init, (tt, [])))))) = false.
Proof.
  destruct (X3_go_stays_disabled_after_a_failed_job
              (Ctx := unplugged_context) (GK := quiet_go_kernel) (Tr := no_translation)
              (Clk := millisecond_clock)
              1000 1200 (on_mouse_down GoPanel_init) tt tt [] AttributeError
              eq_refl eq_refl eq_refl eq_refl) as (H1 & _ & _ & H4).
  split; [exact H1 |].
  apply (proj1 (H4 [@MouseDown millisecond_clock; @ButtonEvent millisecond_clock 5000 5100])).
Defined.

(** ** The status fields over a sequence of signals *)

Lemma last_some_cons {A B : Type} (f : A -> option B) (a : A) (l : list A) (d : B) :
  last_some f (a :: l) d = last_some f l (match f a with Some b => b | None => d end).
Proof. reflexivity. Qed.

Section StatusFacts.
Context {K : Type} `{PC : PacketCounters K}.

Lemma status_signal_bytes (k : K) (sg : StatusSignal) (f : StatusFields) :
  shown_bytes (status_signal k sg f) =
  match signal_bytes sg with
  | Some b => b
  | None => shown_bytes f
  end.
Proof.
  destruct sg as [d c | s | s]; cbn [status_signal signal_bytes].
  - destruct d as [| n | data]; try reflexivity.
    destruct data as [| b0 [| b1 [| b2 [| b3 [| b4 [| b5 [| b6 data]]]]]]];
      reflexivity.
  - destruct s as [s |]; [| reflexivity].
    unfold update_packet_text. destruct (negb (Nat.eqb (String.length s) 0)); reflexivity.
  - reflexivity.
Qed.

Lemma status_signal_packet_text (k : K) (sg : StatusSignal) (f : StatusFields) :
  packet_text_text (status_signal k sg f) =
  match signal_packet_text sg with
  | Some s => s
  | None => packet_text_text f
  end.
Proof.
  destruct sg as [d c | s | s]; cbn [status_signal signal_packet_text].
  - destruct d as [| n | data]; try reflexivity.
    destruct data as [| b0 [| b1 [| b2 [| b3 [| b4 [| b5 [| b6 data]]]]]]];
      reflexivity.
  - destruct s as [s |]; [| reflexivity].
    unfold update_packet_text. destruct (Nat.eqb (String.length s) 0); reflexivity.
  - reflexivity.
Qed.

Lemma status_signals_bytes (k : K) (sgs : list StatusSignal) :
  forall f, shown_bytes (status_signals k sgs f) =
            last_some signal_bytes sgs (shown_bytes f).
Proof.
  induction sgs as [| sg rest IH]; intros f; [reflexivity |].
  rewrite last_some_cons, <- (status_signal_bytes k sg f). apply IH.
Qed.

Lemma status_signals_packet_text (k : K) (sgs : list StatusSignal) :
  forall f, packet_text_text (status_signals k sgs f) =
            last_some signal_packet_text sgs (packet_text_text f).
Proof.
  induction sgs as [| sg rest IH]; intros f; [reflexivity |].
  rewrite last_some_cons, <- (status_signal_packet_text k sg f). apply IH.
Qed.

End StatusFacts.

(** X4: after any sequence of status, packet-text and usb-status signals,
    the six byte fields of the controller window show the six values of the
    last status that had exactly six values (or what they showed before, if
    there was none): a status that is [None], an [int], or of any other
    length changes none of them, so the fields never mix two statuses.  A
    status of six values also sets the description to its code string, and
    every status signal refreshes the two packet counters. *)
Theorem X4_byte_fields_show_the_last_complete_status
    {K : Type} `{PC : PacketCounters K} :
  (forall (k : K) (sgs : list StatusSignal) (f : StatusFields),
     shown_bytes (status_signals k sgs f) =
     last_some signal_bytes sgs (shown_bytes f)) /\
  (forall (k : K) (d : StatusData) (c : string) (f : StatusFields),
     signal_bytes (pipe_status d c) = None ->
     shown_bytes (update_status d c k f) = shown_bytes f /\
     (d = status_None \/ (exists data, d = status_bytes data) ->
      text_desc (update_status d c k f) = text_desc f)) /\
  (forall (k : K) (d : StatusData) (c : string) (f : StatusFields),
     packet_count_text (update_status d c k f) = str (packet_count k) /\
     rejected_packet_count_text (update_status d c k f) = str (rejected_count k) /\
     (signal_bytes (pipe_status d c) <> None \/ (exists n, d = status_int n) ->
      text_desc (update_status d c k f) = c)).
Proof.
  split; [| split].
  - intros k sgs f. apply status_signals_bytes.
  - intros k d c f H. split.
    + pose proof (status_signal_bytes k (pipe_status d c) f) as E.
      rewrite H in E. exact E.
    + intros Hd. destruct d as [| n | data].
      * reflexivity.
      * destruct Hd as [Hd | [data Hd]]; discriminate Hd.
      * destruct data as [| b0 [| b1 [| b2 [| b3 [| b4 [| b5 [| b6 data]]]]]]];
          try reflexivity. discriminate H.
  - intros k d c f. split; [| split].
    + reflexivity.
    + reflexivity.
    + intros [H | [n ->]]; [| reflexivity].
      destruct d as [| n | data]; try (exfalso; apply H; reflexivity).
      destruct data as [| b0 [| b1 [| b2 [| b3 [| b4 [| b5 [| b6 data]]]]]]];
        try (exfalso; apply H; reflexivity). reflexivity.
Qed.

(** Counters that are constant, for runs on concrete inputs. *)
Lemma X4_byte_fields_witness :
  shown_bytes
    (update_status (PC := {| packet_count := fun _ : unit => 3; rejected_count := fun _ => 1 |})
       (status_bytes [255; 206; 111]) "OK" tt status_fields_init) =
  shown_bytes status_fields_init.
Proof.
  apply (proj1 (proj2 (X4_byte_fields_show_the_last_complete_status
                         (PC := {| packet_count := fun _ : unit => 3;
                                   rejected_count := fun _ => 1 |}))) tt
           (status_bytes [255; 206; 111]) "OK" status_fields_init eq_refl).
Defined.

(** X5: after any sequence of signals the packet-text field shows the last
    packet text that was a non-empty string (or what it showed before, if
    there was none): a packet text that is [None] or empty never erases what
    is shown. *)
Theorem X5_packet_text_shows_the_last_non_empty_text
    {K : Type} `{PC : PacketCounters K} :
  (forall (k : K) (sgs : list StatusSignal) (f : StatusFields),
     packet_text_text (status_signals k sgs f) =
     last_some signal_packet_text sgs (packet_text_text f)) /\
  (forall f : StatusFields,
     update_packet_text None f = f /\ update_packet_text (Some "") f = f) /\
  (forall (a : ascii) (s : string) (f : StatusFields),
     packet_text_text (update_packet_text (Some (String a s)) f) = String a s).
Proof.
  split; [| split].
  - intros k sgs f. apply status_signals_packet_text.
  - intros f. split; reflexivity.
  - intros a s f. reflexivity.
Qed.

Example status_signals_run :
  let f := status_signals
             (PC := {| packet_count := fun _ : unit => 3; rejected_count := fun _ => 1 |}) tt
             [pipe_status (status_bytes [255; 206; 111; 142; 19; 0]) "OK";
              pipe_packet_text (Some "AT");
              pipe_status (status_bytes [1; 2; 3]) "short";
              pipe_packet_text (Some "");
              pipe_status (status_int 204) "Busy"]
             status_fields_init in
  shown_bytes f = ["255"; "206"; "111"; "142"; "19"; "0"] /\
  text_desc f = "Busy" /\ packet_text_text f = "AT" /\ packet_count_text f = "3".
Proof. repeat split. Qed.

(** ** Splitting a string at a character *)

Lemma split_not_nil (sep : ascii) (s : string) : split sep s <> [].
Proof.
  destruct s as [| a rest]; cbn; [discriminate |].
  destruct (Ascii.eqb a sep); [discriminate |].
  destruct (split sep rest); discriminate.
Qed.

Lemma join_cons (sep x y : string) (l : list string) :
  join sep (x :: y :: l) = x ++ sep ++ join sep (y :: l).
Proof. reflexivity. Qed.

Lemma join_split (sep : ascii) (s : string) :
  join (String sep EmptyString) (split sep s) = s.
Proof.
  induction s as [| a rest IH]; [reflexivity |].
  cbn [split]. destruct (Ascii.eqb_spec a sep) as [-> | Hne].
  - pose proof (split_not_nil sep rest) as Hnn.
    destruct (split sep rest) as [| p ps]; [contradiction |].
    rewrite join_cons, IH. reflexivity.
  - pose proof (split_not_nil sep rest) as Hnn.
    destruct (split sep rest) as [| p ps]; [contradiction |].
    destruct ps as [| q qs].
    + cbn in IH |- *. now rewrite IH.
    + rewrite join_cons. rewrite join_cons in IH. rewrite <- IH. reflexivity.
Qed.

Lemma split_pieces (sep : ascii) (s : string) :
  Forall (fun piece => occurs sep piece = false) (split sep s).
Proof.
  induction s as [| a rest IH]; cbn [split].
  - constructor; [reflexivity | constructor].
  - destruct (Ascii.eqb a sep) eqn:E.
    + constructor; [reflexivity | exact IH].
    + destruct (split sep rest) as [| p ps].
      * constructor; [cbn; now rewrite E | constructor].
      * inversion IH as [| ? ? Hp Hps]; subst.
        constructor; [cbn; now rewrite E, Hp | exact Hps].
Qed.

Lemma split_without (sep : ascii) (s : string) :
  occurs sep s = false -> split sep s = [s].
Proof.
  induction s as [| a rest IH]; [reflexivity |].
  cbn. destruct (Ascii.eqb a sep); [discriminate |].
  cbn. intros H. now rewrite (IH H).
Qed.

Lemma split_app_without (sep : ascii) (a b : string) :
  occurs sep a = false ->
  split sep (a ++ b) =
  match split sep b with
  | p :: ps => (a ++ p) :: ps
  | [] => [a]
  end.
Proof.
  induction a as [| c a IH]; intros H.
  - cbn. pose proof (split_not_nil sep b) as Hnn.
    destruct (split sep b); [contradiction | reflexivity].
  - cbn in H |- *. destruct (Ascii.eqb c sep); [discriminate |].
    cbn in H. rewrite (IH H).
    destruct (split sep b); reflexivity.
Qed.

Lemma split_app_sep (sep : ascii) (a b : string) :
  split sep (a ++ String sep b) = (split sep a ++ split sep b)%list.
Proof.
  induction a as [| c a IH].
  - cbn. now rewrite Ascii.eqb_refl.
  - cbn. destruct (Ascii.eqb c sep).
    + now rewrite IH.
    + rewrite IH. pose proof (split_not_nil sep a) as Hnn.
      destruct (split sep a); [contradiction | reflexivity].
Qed.

Lemma string_append_assoc (a b c : string) : (a ++ b) ++ c = a ++ (b ++ c).
Proof. induction a as [| x a IH]; cbn; [reflexivity | now rewrite IH]. Qed.


Lemma string_length_append (a b : string) :
  String.length (a ++ b) = (String.length a + String.length b)%nat.
Proof. induction a as [| x a IH]; cbn; [reflexivity | now rewrite IH]. Qed.

Lemma join_snoc (sep : string) (l : list string) (x : string) :
  join sep (l ++ [x]) =
  match l with
  | [] => x
  | _ :: _ => join sep l ++ sep ++ x
  end.
Proof.
  induction l as [| y l IH]; [reflexivity |].
  destruct l as [| z l].
  - reflexivity.
  - change ((y :: z :: l) ++ [x])%list with (y :: ((z :: l) ++ [x]))%list.
    cbn [app] in *. rewrite join_cons, IH, join_cons.
    now rewrite !string_append_assoc.
Qed.

Lemma last_piece_In (l : list string) : l <> [] -> In (last_piece l) l.
Proof.
  intros H. unfold last_piece.
  destruct (exists_last H) as [l' [x ->]].
  rewrite last_last. apply in_or_app. right. now left.
Qed.

(** X6: the label of a control in the controller menu, the last piece of
    its name split at "/", contains no "/"; the name is that label after a
    prefix that is empty or ends with "/"; a name without "/" is its own
    label; and joining the pieces of a name with "/" gives the name back. *)
Theorem X6_control_label_is_the_last_path_piece :
  forall name : string,
    let label := last_piece (split "/"%char name) in
    occurs "/"%char label = false /\
    (exists prefix,
       name = prefix ++ label /\
       (prefix = EmptyString \/ exists q, prefix = q ++ "/")) /\
    (occurs "/"%char name = false -> label = name) /\
    join "/" (split "/"%char name) = name.
Proof.
  intros name label. subst label.
  pose proof (split_not_nil "/"%char name) as Hnn.
  split; [| split; [| split]].
  - pose proof (split_pieces "/"%char name) as Hall.
    rewrite Forall_forall in Hall. apply Hall. now apply last_piece_In.
  - pose proof (join_split "/"%char name) as Hj.
    destruct (exists_last Hnn) as [l' [x E]]. rewrite E in Hj |- *.
    unfold last_piece. rewrite last_last. rewrite join_snoc in Hj.
    destruct l' as [| y l'].
    + exists EmptyString. split; [now rewrite Hj | now left].
    + exists (join "/" (y :: l') ++ "/"). split.
      * rewrite <- Hj. now rewrite string_append_assoc.
      * right. now exists (join "/" (y :: l')).
  - intros H. now rewrite (split_without _ _ H).
  - apply join_split.
Qed.

Lemma X6_control_label_witness :
  last_piece (split "/"%char "Wait Abort") = "Wait Abort" /\
  last_piece (split "/"%char "control/Wait Abort") = "Wait Abort".
Proof.
  split; [| reflexivity].
  apply (proj1 (proj2 (proj2 (X6_control_label_is_the_last_path_piece "Wait Abort")))).
  reflexivity.
Defined.

(** ** The controller menu *)

Section ControllerMenuFacts.
Context {K : Type} `{Cs : Controls K} `{Tr : Translation}.

Lemma controller_menu_items_run (names : list string) :
  forall (items : list string) (k : K) (log : list string),
    match controller_menu_items names items (k, log) with
    | (kl, Returned its) =>
        its = (items ++ map (fun n => last_piece (split "/"%char n)) names)%list /\
        snd kl = (rev names ++ log)%list
    | (kl, Raised e) =>
        exists done name rest,
          names = (done ++ name :: rest)%list /\
          snd kl = (name :: rev done ++ log)%list
    end.
Proof.
  induction names as [| n rest IH]; intros items k log.
  - cbn. split; [now rewrite app_nil_r | reflexivity].
  - cbn [controller_menu_items context_execute recording_controls fst snd].
    destruct (context_execute n k) as [k' [[] | e]].
    + specialize (IH (items ++ [last_piece (split "/"%char n)])%list k' (n :: log)).
      destruct (controller_menu_items rest
                  (items ++ [last_piece (split "/"%char n)])%list (k', n :: log))
        as [kl [its | e]].
      * destruct IH as [H1 H2]. split.
        -- rewrite H1. cbn [map]. now rewrite <- app_assoc.
        -- rewrite H2. cbn [rev]. now rewrite <- app_assoc.
      * destruct IH as (done & name & rest' & H1 & H2).
        exists (n :: done), name, rest'. split.
        -- now rewrite H1.
        -- rewrite H2. cbn [rev]. now rewrite <- app_assoc.
    + exists [], n, rest. split; reflexivity.
Qed.

End ControllerMenuFacts.

(** X7: [on_controller_menu] executes the controls it lists: every name
    matching "control" is executed once, in order, before its entry is added.
    When all of them return, the menu is popped up (also when there is no
    control at all) with one entry per control, labelled by the last piece of
    its name.  When one raises, the exception leaves the handler, the controls
    before it and that one have been executed, the later ones have not, and
    no menu is shown. *)
Theorem X7_controller_menu_executes_the_controls
    {K : Type} `{Cs : Controls K} `{Tr : Translation} :
  forall (k : K) (log : list string),
    match on_controller_menu (k, log) with
    | (kl, Returned menu) =>
        menu_entry menu = tr "Kernel Force Event" /\
        sub_menu menu = map (fun n => last_piece (split "/"%char n)) (match_control k) /\
        snd kl = (rev (match_control k) ++ log)%list
    | (kl, Raised e) =>
        exists done name rest,
          match_control k = (done ++ name :: rest)%list /\
          snd kl = (name :: rev done ++ log)%list
    end.
Proof.
  intros k log. unfold on_controller_menu.
  cbn [match_control recording_controls fst].
  pose proof (controller_menu_items_run (match_control k) [] k log) as H.
  destruct (controller_menu_items (match_control k) [] (k, log)) as [kl [its | e]].
  - destruct H as [H1 H2]. cbn. repeat split; assumption.
  - exact H.
Qed.

(** A registry of three controls of which the second raises. *)
Example controller_menu_run :
  let Cs : Controls unit :=
    {| match_control := fun _ => ["control/Wait Abort"; "control/Realtime Pause"; "control/Status"];
       context_execute := fun name =>
         if (name =? "control/Realtime Pause")%string then raise AttributeError else ret tt |} in
  on_controller_menu (Cs := recording_controls (Cs := Cs)) (tt, []) =
  ((tt, ["control/Realtime Pause"; "control/Wait Abort"]), Raised AttributeError).
Proof. reflexivity. Qed.

(** ** The summary of the local variables *)

Lemma occurs_append (sep : ascii) (a b : string) :
  occurs sep (a ++ b) = occurs sep a || occurs sep b.
Proof.
  induction a as [| c a IH]; [reflexivity |].
  cbn. now rewrite IH, orb_assoc.
Qed.

Lemma occurs_spaces (n : nat) : occurs newline (spaces n) = false.
Proof. induction n as [| n IH]; [reflexivity | exact IH]. Qed.

Lemma length_spaces (n : nat) : String.length (spaces n) = n.
Proof. induction n as [| n IH]; cbn; [reflexivity | now rewrite IH]. Qed.

Lemma split_indent_lines (pad : string) (s : string) :
  occurs newline pad = false ->
  split newline (indent_lines pad s) =
  match split newline s with
  | first :: rest => first :: map (append pad) rest
  | [] => []
  end.
Proof.
  intros Hpad. induction s as [| a s IH]; [reflexivity |].
  cbn [indent_lines split]. destruct (Ascii.eqb a newline) eqn:E.
  - cbn [split]. unfold newline at 1. rewrite Ascii.eqb_refl.
    rewrite (split_app_without newline pad _ Hpad), IH.
    pose proof (split_not_nil newline s) as Hnn.
    destruct (split newline s); [contradiction | reflexivity].
  - cbn [split]. rewrite E, IH.
    pose proof (split_not_nil newline s) as Hnn.
    destruct (split newline s); [contradiction | reflexivity].
Qed.

Lemma length_indent_lines (pad : string) (s : string) :
  String.length (indent_lines pad s) =
  (String.length s + count_newlines s * String.length pad)%nat.
Proof.
  induction s as [| a s IH]; [reflexivity |].
  cbn [indent_lines count_newlines]. destruct (Ascii.eqb a newline); cbn.
  - rewrite string_length_append, IH. lia.
  - rewrite IH. lia.
Qed.

Lemma _variable_summary_app (vars vars' : list (string * string)) (indent : Z) :
  _variable_summary (vars ++ vars') indent =
  _variable_summary vars indent ++ _variable_summary vars' indent.
Proof.
  induction vars as [| [name value] rest IH]; [reflexivity |].
  cbn. now rewrite IH, string_append_assoc.
Qed.

(** X8: in the crash log, a variable whose name has no newline and whose
    value prints as the lines [first :: rest] takes the lines
    [label ++ first] and then each line of [rest] behind as many spaces as
    the label is long (the indent, the name and " : "), so that continuation
    lines start under the value; the entry ends with a newline.  Its length is
    that of the label and the value, plus the label's length for every
    newline of the value, plus one.  A negative indent is no indent, and the
    summary of a dictionary is the concatenation of its entries in order. *)
Theorem X8_variable_summary_aligns_continuation_lines :
  (forall (indent : Z) (name value first : string) (rest : list string),
     occurs newline name = false ->
     split newline value = first :: rest ->
     let width := (Z.to_nat indent + String.length name + 3)%nat in
     split newline (variable_entry indent name value) =
     ((spaces (Z.to_nat indent) ++ name ++ " : " ++ first)%string
        :: map (append (spaces width)) rest ++ [EmptyString])%list) /\
  (forall (indent : Z) (name value : string),
     let width := (Z.to_nat indent + String.length name + 3)%nat in
     String.length (variable_entry indent name value) =
     (width + String.length value + count_newlines value * width + 1)%nat) /\
  (forall (indent : Z) (name value : string),
     indent <= 0 -> variable_entry indent name value = variable_entry 0 name value) /\
  (forall (vars vars' : list (string * string)) (indent : Z),
     _variable_summary (vars ++ vars') indent =
     _variable_summary vars indent ++ _variable_summary vars' indent).
Proof.
  assert (Hlabel : forall indent name,
             String.length (spaces (Z.to_nat indent) ++ name ++ " : ") =
             (Z.to_nat indent + String.length name + 3)%nat).
  { intros indent name.
    rewrite !string_length_append, length_spaces. cbn. lia. }
  split; [| split; [| split]].
  - intros indent name value first rest Hname Hsplit width. subst width.
    unfold variable_entry. cbv zeta. rewrite Hlabel.
    set (width := (Z.to_nat indent + String.length name + 3)%nat).
    rewrite string_append_assoc.
    assert (Hl : occurs newline (spaces (Z.to_nat indent) ++ name ++ " : ") = false).
    { rewrite !occurs_append, occurs_spaces, Hname. reflexivity. }
    rewrite <- (string_append_assoc (spaces (Z.to_nat indent)) (name ++ " : ")).
    rewrite (split_app_without newline _ _ Hl).
    rewrite split_app_sep, (split_indent_lines _ _ (occurs_spaces width)), Hsplit.
    cbn [app split]. rewrite !string_append_assoc. reflexivity.
  - intros indent name value width. subst width.
    unfold variable_entry. cbv zeta.
    rewrite Hlabel, !string_length_append, length_indent_lines, !length_spaces.
    cbn [String.length]. lia.
  - intros indent name value Hi. unfold variable_entry.
    replace (Z.to_nat indent) with (Z.to_nat 0) by (cbn; lia). reflexivity.
  - exact _variable_summary_app.
Qed.

Lemma X8_variable_summary_witness :
  split newline (variable_entry 0 "e" ("ab" ++ String newline "cd")) =
  ["e : ab"; "    cd"; ""].
Proof.
  apply (proj1 X8_variable_summary_aligns_continuation_lines 0 "e"
           ("ab" ++ String newline "cd") "ab" ["cd"]); reflexivity.
Defined.

(** ** PointNode.validate *)

Section ValidateFacts.
Context `{SvgC : SvgConstruct}.

Lemma validate_complete (n : PointNode) (m : Matrix) (p : Point) :
  matrix n = Some m -> point n = Some p -> validate n = (n, validate_returned).
Proof. intros Hm Hp. unfold validate. now rewrite Hm, Hp. Qed.

Lemma float_setting_set (key : string) (m : option Matrix) (p : option Point)
    (n : PointNode) :
  float_setting key (set_matrix_point m p n) = float_setting key n.
Proof. reflexivity. Qed.

Ltac validate_split n :=
  unfold validate;
  destruct (matrix n) eqn:Hm; destruct (point n) eqn:Hp;
  cbn [point matrix set_matrix_point]; rewrite ?Hp, ?float_setting_set;
  try (destruct (float_setting "x" n) eqn:Hx; [destruct (float_setting "y" n) eqn:Hy |]);
  cbn [fst snd point matrix set_matrix_point option_map _bounds _bounds_dirty settings lock];
  rewrite ?Hm, ?Hp.

Lemma validate_cases (n : PointNode) :
  (snd (validate n) = validate_returned /\
   exists m p, matrix (fst (validate n)) = Some m /\ point (fst (validate n)) = Some p) \/
  (snd (validate n) = validate_ValueError /\
   point n = None /\
   (float_setting "x" n = None \/ float_setting "y" n = None) /\
   point (fst (validate n)) = None /\
   exists m, matrix (fst (validate n)) = Some m).
Proof.
  validate_split n;
    solve [ left; split; [reflexivity | cbn; eauto]
          | right; cbn; intuition eauto ].
Qed.

Lemma validate_error_iff (n : PointNode) :
  snd (validate n) = validate_ValueError <->
  point n = None /\ (float_setting "x" n = None \/ float_setting "y" n = None).
Proof.
  validate_split n; cbn; intuition discriminate.
Qed.

Lemma validate_twice (n : PointNode) :
  validate (fst (validate n)) = validate n.
Proof.
  validate_split n;
    unfold validate;
    cbn [point matrix set_matrix_point option_map];
    rewrite ?Hm, ?Hp, ?float_setting_set, ?Hx, ?Hy; reflexivity.
Qed.

Lemma validate_frame (n : PointNode) :
  _bounds (fst (validate n)) = _bounds n /\
  _bounds_dirty (fst (validate n)) = _bounds_dirty n /\
  settings (fst (validate n)) = settings n /\
  lock (fst (validate n)) = lock n.
Proof.
  validate_split n; repeat split; reflexivity.
Qed.

End ValidateFacts.

(** X9: [validate] completes a node or fails without completing it: when it
    returns, the node has a matrix and a point; it raises [ValueError] exactly
    when the point is missing and the setting [x] or [y] is not a number, and
    then the point is still missing (the matrix is there).  A node that has
    both is left as it is, validating twice does what validating once does,
    and [validate] never touches the cached bounds, their dirty flag, the
    settings or the lock.  On a node with neither matrix nor point, the point
    becomes the origin under a new matrix translated by the settings [x] and
    [y] (0 when absent), and reading [bounds] of a dirty node then gives the
    rectangle of that matrix applied to the origin. *)
Theorem X9_validate_completes_the_node `{SvgC : SvgConstruct} :
  (forall n : PointNode,
     (snd (validate n) = validate_returned /\
      exists m p, matrix (fst (validate n)) = Some m /\ point (fst (validate n)) = Some p) \/
     (snd (validate n) = validate_ValueError /\
      point n = None /\
      (float_setting "x" n = None \/ float_setting "y" n = None) /\
      point (fst (validate n)) = None /\
      exists m, matrix (fst (validate n)) = Some m)) /\
  (forall (n : PointNode) (m : Matrix) (p : Point),
     matrix n = Some m -> point n = Some p -> validate n = (n, validate_returned)) /\
  (forall n : PointNode, validate (fst (validate n)) = validate n) /\
  (forall n : PointNode,
     _bounds (fst (validate n)) = _bounds n /\
     _bounds_dirty (fst (validate n)) = _bounds_dirty n /\
     settings (fst (validate n)) = settings n /\
     lock (fst (validate n)) = lock n) /\
  (forall (n : PointNode) (x y : coord),
     matrix n = None -> point n = None ->
     float_setting "x" n = Some x -> float_setting "y" n = Some y ->
     _bounds_dirty n = true ->
     let m := pre_translate Matrix_new x y in
     snd (validate n) = validate_returned /\
     matrix (fst (validate n)) = Some m /\
     point (fst (validate n)) = Some (coord_zero, coord_zero) /\
     snd (bounds (fst (validate n))) =
       Returned (Some (rect_of (fst (transform_point m (coord_zero, coord_zero)))))) /\
  (forall n : PointNode,
     snd (validate n) = validate_ValueError <->
     point n = None /\ (float_setting "x" n = None \/ float_setting "y" n = None)).
Proof.
  split; [| split; [| split; [| split; [| split]]]]; [| | | | | exact validate_error_iff].
  - exact validate_cases.
  - exact validate_complete.
  - exact validate_twice.
  - exact validate_frame.
  - intros n x y Hm Hp Hx Hy Hd m. subst m.
    assert (E : validate n =
                (set_matrix_point (Some (pre_translate Matrix_new x y))
                   (Some (coord_zero, coord_zero))
                   (set_matrix_point (Some Matrix_new) (point n) n),
                 validate_returned)).
    { unfold validate. rewrite Hm. cbn [point set_matrix_point]. rewrite Hp.
      rewrite !float_setting_set, Hx, Hy. reflexivity. }
    rewrite E. cbn [fst snd]. repeat split.
    unfold bounds. cbn. rewrite Hd.
    destruct (transform_point (pre_translate Matrix_new x y) (coord_zero, coord_zero)).
    reflexivity.
Qed.

Lemma X9_validate_witness :
  snd (bounds (fst (validate example_unvalidated))) =
  Returned (Some {| xmin := 7; ymin := 9; xmax := 7; ymax := 9 |}).
Proof.
  destruct (proj1 (proj2 (proj2 (proj2 (proj2
                      (X9_validate_completes_the_node (SvgC := Z_construct))))))
              example_unvalidated 7 9 eq_refl eq_refl eq_refl eq_refl eq_refl)
    as (_ & _ & _ & H).
  rewrite H. reflexivity.
Defined.

Example validate_bad_setting :
  let n := {| point := None; matrix := None; settings := [("x", "left")];
              fill := None; stroke := None; stroke_width := None; lock := false;
              _formatter := ""; _bounds := None; _bounds_dirty := true |} in
  snd (validate (SvgC := Z_construct) n) = validate_ValueError /\
  point (fst (validate (SvgC := Z_construct) n)) = None /\
  snd (bounds (fst (validate (SvgC := Z_construct) n))) = Raised TypeError.
Proof. repeat split. Qed.

(** ** PointNode.revalidate_points *)

Lemma list_set_spec {A : Type} (i : nat) (x : A) (l : list A) :
  (i < List.length l)%nat ->
  list_set i x l = (firstn i l ++ x :: skipn (S i) l)%list.
Proof.
  revert i. induction l as [| y l IH]; intros i Hi; [cbn in Hi; lia |].
  destruct i as [| i]; [reflexivity |].
  cbn in Hi. cbn [list_set firstn skipn app]. f_equal.
  rewrite IH by lia. reflexivity.
Qed.

Lemma length_list_set {A : Type} (i : nat) (x : A) (l : list A) :
  List.length (list_set i x l) = List.length l.
Proof.
  revert i. induction l as [| y l IH]; intros i; [now destruct i |].
  destruct i; cbn; [reflexivity | now rewrite IH].
Qed.

Section RevalidateFacts.
Context `{SvgC : SvgConstruct}.

Lemma set_handles_spec (handles : list (option PointEntry)) :
  forall (i : nat) (pts : list (option PointEntry)),
    (i + List.length handles <= List.length pts)%nat ->
    set_handles i handles pts =
    (firstn i pts ++ handles ++ skipn (i + List.length handles) pts)%list.
Proof.
  induction handles as [| h rest IH]; intros i pts Hlen.
  - cbn. rewrite Nat.add_0_r. now rewrite firstn_skipn.
  - cbn [set_handles List.length] in *.
    rewrite IH by (rewrite length_list_set; lia).
    rewrite list_set_spec by lia.
    rewrite firstn_app, firstn_firstn, Nat.min_r by lia.
    rewrite length_firstn, Nat.min_l by lia.
    replace (S i - i)%nat with 1%nat by lia. cbn [firstn].
    rewrite skipn_app, length_firstn, Nat.min_l by lia.
    rewrite (skipn_all2 (firstn i pts)) by (rewrite length_firstn; lia).
    replace (S i + List.length rest - i)%nat with (S (List.length rest)) by lia.
    cbn [app]. rewrite skipn_cons, skipn_skipn.
    replace (List.length rest + S i)%nat with (i + S (List.length rest))%nat by lia.
    rewrite <- app_assoc. reflexivity.
Qed.

Lemma extend_to_nine (pts : list (option PointEntry)) :
  let pts1 := if (List.length pts <? 9)%nat
              then (pts ++ repeat None (9 - List.length pts))%list
              else pts in
  List.length pts1 = Nat.max (List.length pts) 9 /\
  skipn 9 pts1 = skipn 9 pts.
Proof.
  cbv zeta. destruct (Nat.ltb_spec (List.length pts) 9) as [Hlt | Hge].
  - rewrite length_app, repeat_length. split; [lia |].
    rewrite skipn_all2 by (rewrite length_app, repeat_length; lia).
    rewrite skipn_all2 by lia. reflexivity.
  - split; [lia | reflexivity].
Qed.

Lemma revalidate_points_with_bounds (n n' : PointNode) (b : Bounds) (pt : Point)
    (pts : list (option PointEntry)) :
  bounds n = (n', Returned (Some b)) ->
  point n' = Some pt ->
  revalidate_points (n, pts) =
  ((n', (bounds_handles b ++ skipn 9 pts ++ [Some (fst pt, snd pt, "point")])%list),
   Returned tt).
Proof.
  intros Hb Hp. unfold revalidate_points. cbn [fst snd]. rewrite Hb, Hp.
  destruct (extend_to_nine pts) as [Hlen Hskip]. cbv zeta in Hlen, Hskip.
  rewrite set_handles_spec by (cbn [bounds_handles List.length]; lia).
  cbn [firstn app]. change (0 + List.length (bounds_handles b))%nat with 9%nat.
  rewrite Hskip. rewrite <- app_assoc. reflexivity.
Qed.

Lemma revalidate_points_step (n : PointNode) (m : Matrix) (p : Point)
    (pts : list (option PointEntry)) :
  matrix n = Some m -> point n = Some p -> cache_ok n ->
  exists n' b p',
    revalidate_points (n, pts) =
    ((n', (bounds_handles b ++ skipn 9 pts ++ [Some (fst p', snd p', "point")])%list),
     Returned tt) /\
    snd (bounds n) = Returned (Some b) /\
    matrix n' = Some m /\ point n' = Some p' /\ cache_ok n' /\
    _bounds_dirty n' = false.
Proof.
  intros Hm Hp Hok. destruct (_bounds_dirty n) eqn:Hd.
  - pose proof (bounds_dirty n m p Hm Hp Hd) as Hb.
    eexists _, _, _. split; [apply (revalidate_points_with_bounds _ _ _ _ _ Hb); reflexivity |].
    rewrite Hb. cbn. repeat split; try assumption.
    intros _. eexists. split; [reflexivity | apply rect_of_degenerate].
  - destruct (Hok Hd) as [b [Hb Hdeg]].
    pose proof (bounds_clean n Hd) as Hc. rewrite Hb in Hc.
    exists n, b, p. split; [apply (revalidate_points_with_bounds _ _ _ _ _ Hc Hp) |].
    rewrite Hc. repeat split; assumption.
Qed.

Lemma revalidations_length (k : nat) :
  forall (n : PointNode) (m : Matrix) (p : Point) (pts : list (option PointEntry)),
    matrix n = Some m -> point n = Some p -> cache_ok n ->
    List.length (snd (revalidations (S k) (n, pts))) =
    (Nat.max (List.length pts) 9 + S k)%nat.
Proof.
  induction k as [| k IH]; intros n m p pts Hm Hp Hok;
    destruct (revalidate_points_step n m p pts Hm Hp Hok)
      as (n' & b & p' & Hr & _ & Hm' & Hp' & Hok' & _).
  - cbn [revalidations]. rewrite Hr. cbn [fst snd].
    rewrite !length_app, length_skipn. cbn [bounds_handles List.length]. lia.
  - change (revalidations (S (S k)) (n, pts))
      with (revalidations (S k) (fst (revalidate_points (n, pts)))).
    rewrite Hr. cbn [fst]. rewrite (IH n' m p' _ Hm' Hp' Hok').
    rewrite !length_app, length_skipn. cbn [bounds_handles List.length]. lia.
Qed.

End RevalidateFacts.

(** X10: on a node with matrix and point (and a sound cache),
    [revalidate_points] returns normally and leaves in [_points] the nine
    handles of the bounds at the indices 0 to 8, then every entry the list
    held from index 9 on, then one more entry for the point.  So the entries
    for the point of earlier calls are never removed: after [k] calls in a row
    on a list of length [l] the list has [max l 9 + k] entries.  When the
    bounds are [None] the method returns without touching the list. *)
Theorem X10_revalidate_points_appends_the_point `{SvgC : SvgConstruct} :
  (forall (n : PointNode) (m : Matrix) (p : Point) (pts : list (option PointEntry)),
     matrix n = Some m -> point n = Some p -> cache_ok n ->
     exists n' b p',
       revalidate_points (n, pts) =
       ((n', (bounds_handles b ++ skipn 9 pts ++ [Some (fst p', snd p', "point")])%list),
        Returned tt) /\
       snd (bounds n) = Returned (Some b) /\
       matrix n' = Some m /\ point n' = Some p' /\ cache_ok n' /\
       _bounds_dirty n' = false) /\
  (forall (k : nat) (n : PointNode) (m : Matrix) (p : Point)
          (pts : list (option PointEntry)),
     matrix n = Some m -> point n = Some p -> cache_ok n ->
     List.length (snd (revalidations (S k) (n, pts))) =
     (Nat.max (List.length pts) 9 + S k)%nat) /\
  (forall (n : PointNode) (pts : list (option PointEntry)),
     _bounds_dirty n = false -> _bounds n = None ->
     revalidate_points (n, pts) = ((n, pts), Returned tt)).
Proof.
  split; [| split].
  - exact revalidate_points_step.
  - exact revalidations_length.
  - intros n pts Hd Hb. unfold revalidate_points. cbn [fst snd].
    rewrite (bounds_clean n Hd), Hb. reflexivity.
Qed.

Lemma X10_revalidate_points_witness :
  List.length (snd (revalidations (SvgC := Z_construct) 3 (example_node, []))) = 12%nat.
Proof.
  apply (proj1 (proj2 (X10_revalidate_points_appends_the_point (SvgC := Z_construct)))
           2%nat example_node _ (3, 4) [] eq_refl eq_refl).
  intros H. discriminate H.
Defined.

(** ** PointNode.default_map *)

Lemma dict_get_app {V : Type} (key : string) (d d' : list (string * V)) :
  dict_get key (d ++ d') =
  match dict_get key d with
  | Some v => Some v
  | None => dict_get key d'
  end.
Proof.
  induction d as [| [k v] d IH]; [reflexivity |].
  cbn. destruct (k =? key)%string; [reflexivity | exact IH].
Qed.

Lemma dict_get_map {V W : Type} (f : V -> W) (key : string) (d : list (string * V)) :
  dict_get key (map (fun kv => (fst kv, f (snd kv))) d) = option_map f (dict_get key d).
Proof.
  induction d as [| [k v] d IH]; [reflexivity |].
  cbn. destruct (k =? key)%string; [reflexivity | exact IH].
Qed.

(** X11: in the map [default_map] gives, "stroke", "fill", "stroke-width"
    and "matrix" are always the node's own attributes, whatever the settings
    and the parent's map hold under these keys; for every other key a setting
    wins; without a setting, "x" and "y" are the coordinates of the point (0
    when there is no point), "element_type" is "Point", and any other key is
    what the parent's map gives. *)
Theorem X11_default_map_precedence `{Svg : SvgElements} :
  forall (base : list (string * MapValue)) (n : PointNode),
    let d := default_map base n in
    dict_get "stroke" d = Some (value_of_str (stroke n)) /\
    dict_get "fill" d = Some (value_of_str (fill n)) /\
    dict_get "stroke-width" d =
      Some (match stroke_width n with Some c => value_coord c | None => value_None end) /\
    dict_get "matrix" d =
      Some (match matrix n with Some m => value_matrix m | None => value_None end) /\
    forall key : string,
      key <> "stroke" -> key <> "fill" -> key <> "stroke-width" -> key <> "matrix" ->
      dict_get key d =
      match dict_get key (settings n) with
      | Some v => Some (value_str v)
      | None =>
          if (key =? "y")%string then
            Some (match point n with Some pt => value_coord (snd pt) | None => value_int 0 end)
          else if (key =? "x")%string then
            Some (match point n with Some pt => value_coord (fst pt) | None => value_int 0 end)
          else if (key =? "element_type")%string then Some (value_str "Point")
          else dict_get key base
      end.
Proof.
  intros base n d. subst d. unfold default_map.
  repeat split; try reflexivity.
  intros key H1 H2 H3 H4.
  cbn [dict_get].
  apply String.eqb_neq in H1, H2, H3, H4.
  rewrite (String.eqb_sym "matrix"), H4, (String.eqb_sym "stroke-width"), H3,
    (String.eqb_sym "fill"), H2, (String.eqb_sym "stroke"), H1.
  rewrite dict_get_app, dict_get_map.
  destruct (dict_get key (settings n)) as [v |]; [reflexivity |].
  cbn [option_map].
  destruct (point n) as [pt |]; cbn [dict_get];
    rewrite (String.eqb_sym "y"), (String.eqb_sym "x"), (String.eqb_sym "element_type");
    destruct (key =? "y")%string; try reflexivity;
    destruct (key =? "x")%string; try reflexivity;
    destruct (key =? "element_type")%string; reflexivity.
Qed.

Lemma X11_default_map_witness :
  dict_get "x"
    (default_map (Svg := Z_geometry) [("x", value_int 1); ("id", value_str "p1")]
       example_unvalidated) = Some (value_str "7").
Proof.
  rewrite (proj2 (proj2 (proj2 (proj2
             (X11_default_map_precedence (Svg := Z_geometry)
                [("x", value_int 1); ("id", value_str "p1")] example_unvalidated))))
             "x"); try discriminate.
  reflexivity.
Defined.

(** ** wxMeerK40t.update_language *)

Lemma py_index_negative {A : Type} (t : list A) (i : Z) :
  - Z.of_nat (List.length t) <= i < 0 ->
  py_index t i = py_index t (Z.of_nat (List.length t) + i).
Proof.
  intros [Hlo Hhi]. unfold py_index.
  destruct (Z.leb_spec 0 i); [lia |].
  destruct (Z.leb_spec (- Z.of_nat (List.length t)) i); [| lia].
  destruct (Z.leb_spec 0 (Z.of_nat (List.length t) + i)); [reflexivity | lia].
Qed.

Lemma py_index_out {A : Type} (t : list A) (i : Z) :
  i < - Z.of_nat (List.length t) \/ Z.of_nat (List.length t) <= i ->
  py_index t i = None.
Proof.
  intros H. unfold py_index.
  destruct (Z.leb_spec 0 i).
  - apply nth_error_None. lia.
  - destruct (Z.leb_spec (- Z.of_nat (List.length t)) i); [lia | reflexivity].
Qed.

Lemma py_index_in {A : Type} (t : list A) (i : Z) :
  - Z.of_nat (List.length t) <= i < Z.of_nat (List.length t) ->
  exists x, py_index t i = Some x.
Proof.
  intros H. unfold py_index.
  destruct (Z.leb_spec 0 i).
  - destruct (nth_error t (Z.to_nat i)) eqn:E; [eauto |].
    apply nth_error_None in E. lia.
  - destruct (Z.leb_spec (- Z.of_nat (List.length t)) i); [| lia].
    destruct (nth_error t (Z.to_nat (Z.of_nat (List.length t) + i))) eqn:E; [eauto |].
    apply nth_error_None in E. lia.
Qed.

(** X12: [update_language] accepts the indices from -11 to 10: outside that
    range it returns without changing anything; inside it records the index
    given as the context's language, and a negative index selects the same
    language as that index plus 11 (-1 is the last language of the table).
    When no locale was installed before (or the reference-count assertion
    holds) it returns having sent the "language" signal with the index and the
    table's entry, also when the new locale is not usable and the locale is
    left at [None]; when the assertion fails, the language index is already
    changed but locale and signals are not. *)
Theorem X12_update_language_index_range `{Pf : Platform} :
  (forall (lang : Z) (st : LanguageState),
     lang < -11 \/ 11 <= lang -> update_language lang st = (st, language_returned)) /\
  (forall lang : Z,
     -11 <= lang < 0 ->
     py_index supported_languages lang = py_index supported_languages (lang + 11)) /\
  (forall (lang : Z) (st : LanguageState),
     -11 <= lang < 11 ->
     exists code name index,
       py_index supported_languages lang = Some (code, name, index) /\
       context_language (fst (update_language lang st)) = Some lang /\
       (app_locale st = None \/ refcount_ok = true ->
        snd (update_language lang st) = language_returned /\
        language_signals (fst (update_language lang st)) =
          (lang, code, name, index) :: language_signals st /\
        app_locale (fst (update_language lang st)) =
          if locale_IsOk index || system_is_Linux
          then Some {| locale_language := index; locale_catalogs := ["meerk40t"] |}
          else None) /\
       (app_locale st <> None -> refcount_ok = false ->
        snd (update_language lang st) = language_AssertionError /\
        language_signals (fst (update_language lang st)) = language_signals st /\
        app_locale (fst (update_language lang st)) = app_locale st)).
Proof.
  split; [| split].
  - intros lang st H. unfold update_language.
    rewrite py_index_out; [reflexivity |]. cbn. lia.
  - intros lang H.
    rewrite (py_index_negative supported_languages lang) by (cbn; lia).
    change (Z.of_nat (List.length supported_languages)) with 11.
    now rewrite Z.add_comm.
  - intros lang st H.
    destruct (py_index_in supported_languages lang) as [[[code name] index] E];
      [cbn; lia |].
    exists code, name, index. split; [exact E |].
    unfold update_language. rewrite E. cbn [app_locale].
    destruct (app_locale st) as [loc |] eqn:Hl; destruct refcount_ok eqn:Hr;
      cbn; intuition (try discriminate; congruence).
Qed.

Lemma X12_update_language_witness :
  py_index supported_languages (-1) = Some ("nl", "Nederlands", LANGUAGE_DUTCH).
Proof.
  rewrite (proj1 (proj2 (X12_update_language_index_range
                           (Pf := {| locale_IsOk := fun _ => true;
                                     system_is_Linux := false;
                                     refcount_ok := true |}))) (-1)) by lia.
  reflexivity.
Defined.

(** ** wxMeerK40t.MacOpenFiles *)

Section DockFacts.
Context {K : Type} `{El : Elements K}.

Lemma load_files_run (filenames : list string) :
  forall (k : K) (log : list string),
    match load_files filenames (k, log) with
    | (kl, Returned _) =>
        snd kl = (rev (map (realpath (K := K)) filenames) ++ log)%list
    | (kl, Raised e) =>
        exists done f rest,
          filenames = (done ++ f :: rest)%list /\
          (snd kl = (rev (map (realpath (K := K)) done) ++ log)%list \/
           snd kl = (realpath (K := K) f :: rev (map (realpath (K := K)) done) ++ log)%list)
    end.
Proof.
  induction filenames as [| f rest IH]; intros k log; [reflexivity |].
  cbn [load_files]. unfold bind, load_file.
  cbn [has_elements recording_elements fst snd].
  destruct (has_elements k).
  - cbn [elements_load recording_elements fst snd realpath].
    destruct (elements_load (realpath (K := K) f) k) as [k' [[] | e]].
    + specialize (IH k' (realpath (K := K) f :: log)).
      destruct (load_files rest (k', realpath (K := K) f :: log)) as [kl [[] | e]].
      * rewrite IH. cbn [map rev]. now rewrite <- app_assoc.
      * destruct IH as (done & g & rest' & H1 & H2).
        exists (f :: done), g, rest'. split; [now rewrite H1 |].
        cbn [map rev]. rewrite <- !app_assoc. cbn [app].
        destruct H2 as [-> | ->]; [left | right]; reflexivity.
    + exists [], f, rest. split; [reflexivity | right; reflexivity].
  - exists [], f, rest. split; [reflexivity | left; reflexivity].
Qed.

End DockFacts.

(** X13: [MacOpenFiles] loads the real paths of the files in the order
    given.  When a load raises, the files after it are not loaded: an
    [AttributeError] (also that of a context without [elements]) is swallowed
    and the handler returns normally, any other exception leaves the handler.
    It never raises [AttributeError], and without a context it does nothing. *)
Theorem X13_MacOpenFiles_stops_at_the_first_failure {K : Type} `{El : Elements K} :
  forall (filenames : list string) (k : K) (log : list string),
    MacOpenFiles false filenames (k, log) = ((k, log), Returned tt) /\
    snd (MacOpenFiles true filenames (k, log)) <> Raised AttributeError /\
    match load_files filenames (k, log) with
    | (kl, Returned _) =>
        MacOpenFiles true filenames (k, log) = (kl, Returned tt) /\
        snd kl = (rev (map (realpath (K := K)) filenames) ++ log)%list
    | (kl, Raised e) =>
        MacOpenFiles true filenames (k, log) =
          (kl, if Exn_eqb e AttributeError then Returned tt else Raised e) /\
        exists done f rest,
          filenames = (done ++ f :: rest)%list /\
          (snd kl = (rev (map (realpath (K := K)) done) ++ log)%list \/
           snd kl = (realpath (K := K) f :: rev (map (realpath (K := K)) done) ++ log)%list)
    end.
Proof.
  intros filenames k log.
  pose proof (load_files_run filenames k log) as H.
  unfold MacOpenFiles, try_except.
  split; [reflexivity |].
  destruct (load_files filenames (k, log)) as [kl [[] | e]].
  - split; [discriminate |]. split; [reflexivity | exact H].
  - split.
    + destruct e; cbn; discriminate.
    + split; [| exact H]. destruct (Exn_eqb e AttributeError); reflexivity.
Qed.

(** A context in which the second of three files cannot be loaded. *)
Example MacOpenFiles_run :
  let El : Elements unit :=
    {| has_elements := fun _ => true;
       elements_load := fun path =>
         if (path =? "/real/b.svg")%string then raise AttributeError else ret tt;
       realpath := fun f => "/real/" ++ f |} in
  MacOpenFiles (El := recording_elements (El := El)) true ["a.svg"; "b.svg"; "c.svg"] (tt, []) =
  ((tt, ["/real/b.svg"; "/real/a.svg"]), Returned tt).
Proof. reflexivity. Qed.

(** ** send_data_to_developers *)


















(** ** The controller button and the connection button *)

Section ButtonFacts.
Context {K : Type} `{Ctx : Context K} `{Tr : Translation}.

Lemma button_follows_state_init : button_follows_state gui_init.
Proof. split; [discriminate | intros s lines label icon H; discriminate H]. Qed.

Lemma on_control_state_follows (s : ThreadState) (g : Gui) :
  button_follows_state g -> button_follows_state (on_control_state s g).
Proof.
  intros [Ht Hf]. unfold on_control_state.
  destruct (match last_control_state g with
            | Some last => ThreadState_eqb last s
            | None => false
            end); [now split |].
  cbn [text_controller_status set_last_control_state].
  destruct (text_controller_status g) as [txt |]; [| contradiction].
  split.
  - destruct s; cbn; discriminate.
  - intros s' lines label icon Hl Ha.
    assert (s' = s) as ->.
    { destruct s; cbn in Hl; congruence. }
    destruct s; cbn in Ha; try discriminate Ha;
      injection Ha as <- <- <-; cbn; repeat split.
Qed.

Lemma control_states_follows (states : list ThreadState) :
  forall g, button_follows_state g -> button_follows_state (control_states states g).
Proof.
  induction states as [| s rest IH]; intros g H; [exact H |].
  apply IH, on_control_state_follows, H.
Qed.

Lemma on_connection_state_change_disables (s : string) (g : Gui) (k : K) :
  Enabled (button_device_connect g) = true ->
  Enabled (button_device_connect (fst (fst (on_connection_state_change s (g, k))))) = false ->
  s = "STATE_CONNECTING" \/ s = "STATE_USB_SET_DISCONNECTING".
Proof.
  intros Hon. unfold on_connection_state_change.
  destruct ((s =? "STATE_CONNECTION_FAILED") || (s =? "STATE_DRIVER_NO_BACKEND"))%string.
  { unfold bind, gui_do, modify, last_signal_0. cbn.
    destruct (last_signal "pipe;usb_status" k) as [[| x args] |]; cbn; congruence. }
  destruct ((s =? "STATE_UNINITIALIZED") || (s =? "STATE_USB_DISCONNECTED"))%string;
    [cbn; discriminate |].
  destruct (String.eqb_spec s "STATE_USB_SET_DISCONNECTING") as [-> | _]; [now right |].
  destruct ((s =? "STATE_USB_CONNECTED") || (s =? "STATE_CONNECTED"))%string;
    [cbn; discriminate |].
  destruct (String.eqb_spec s "STATE_CONNECTING") as [-> | _]; [now left |].
  cbn. congruence.
Qed.

End ButtonFacts.

(** X15: after any history of control-state notifications on a new window
    that ends with a state for which [on_control_state] binds a handler
    (Initialize, End, Idle, Wait, Pause, Active or Terminate), the controller
    button is enabled, carries the label and the icon of that state, and a
    click runs the closure bound for that state, sending its console lines in
    order until one raises; repeated and unknown states in the history make no
    difference. *)
Theorem X15_controller_button_follows_the_last_state
    {K : Type} `{Ctx : Context K} `{Tr : Translation} :
  forall (states : list ThreadState) (s : ThreadState)
         (lines : list string) (label : string) (icon : Icon) (k : K),
    state_action s = Some (lines, label, icon) ->
    let g := control_states (states ++ [s]) gui_init in
    Enabled (button_controller_control g) = true /\
    Label (button_controller_control g) = tr label /\
    Bitmap (button_controller_control g) = icon /\
    click_controller_control (g, k) = send_lines lines (g, k).
Proof.
  intros states s lines label icon k Ha g.
  assert (Hinv : button_follows_state g).
  { apply control_states_follows, button_follows_state_init. }
  assert (Hlast : last_control_state g = Some s).
  { subst g. rewrite control_states_snoc. apply on_control_state_last. }
  destruct Hinv as [_ Hf].
  destruct (Hf s lines label icon Hlast Ha) as (Hb & He & Hl & Hi).
  repeat split; try assumption.
  unfold click_controller_control. cbn [fst]. rewrite He.
  destruct (control_bindings g) as [| h hs]; [discriminate Hb |].
  cbn in Hb. injection Hb as ->. reflexivity.
Qed.

Lemma X15_controller_button_witness :
  sent (fst (click_controller_control
               (control_states (K := Signals * list string)
                  [STATE_ACTIVE; STATE_BUSY; STATE_OTHER 6; STATE_IDLE; STATE_IDLE] gui_init,
                ([] : Signals, [])))) =
  [line "hold"; line "start"].
Proof.
  rewrite (proj2 (proj2 (proj2
             (X15_controller_button_follows_the_last_state
                (K := Signals * list string)
                [STATE_ACTIVE; STATE_BUSY; STATE_OTHER 6; STATE_IDLE] STATE_IDLE
                [line "start"; line "hold"] "Hold Controller" icons8_play_50
                ([] : Signals, []) eq_refl)))).
  reflexivity.
Defined.

(** X16: a connection-state notification takes the connection button from
    enabled to disabled only for STATE_CONNECTING and
    STATE_USB_SET_DISCONNECTING, and it does so for these two whatever the
    window was; in these two states a click on the button would send nothing
    anyway.  STATE_DRIVER_NO_BACKEND is the one state in which the
    notification leaves the button enabled (given a usb status to show) while
    a click sends nothing. *)
Theorem X16_connection_button_disabled_when_idle
    {K : Type} `{Ctx : Context K} `{Tr : Translation} :
  (forall (s : string) (g : Gui) (k : K),
     Enabled (button_device_connect g) = true ->
     Enabled (button_device_connect (fst (fst (on_connection_state_change s (g, k))))) = false ->
     s = "STATE_CONNECTING" \/ s = "STATE_USB_SET_DISCONNECTING") /\
  (forall (s : string) (g : Gui) (k : K),
     s = "STATE_CONNECTING" \/ s = "STATE_USB_SET_DISCONNECTING" ->
     Enabled (button_device_connect (fst (fst (on_connection_state_change s (g, k))))) = false /\
     snd (on_connection_state_change s (g, k)) = Returned tt) /\
  (forall (s : string) (g : Gui) (k : K) (log args : list string),
     s = "STATE_CONNECTING" \/ s = "STATE_USB_SET_DISCONNECTING" \/
     s = "STATE_DRIVER_NO_BACKEND" ->
     last_signal "pipe;state" k = Some (s :: args) ->
     on_button_start_usb (g, (k, log)) = ((g, (k, log)), Returned tt)) /\
  (forall (g : Gui) (k : K) (status : string) (args : list string),
     last_signal "pipe;usb_status" k = Some (status :: args) ->
     Enabled (button_device_connect
                (fst (fst (on_connection_state_change "STATE_DRIVER_NO_BACKEND" (g, k))))) = true).
Proof.
  split; [| split; [| split]].
  - intros s g k. apply on_connection_state_change_disables.
  - intros s g k [-> | ->]; split; reflexivity.
  - intros s g k log args Hs Hsig.
    unfold on_button_start_usb, bind, last_pipe_state.
    cbn [last_signal recording_context fst snd]. rewrite Hsig.
    destruct Hs as [-> | [-> | ->]]; reflexivity.
  - intros g k status args Hs. unfold on_connection_state_change.
    cbn [String.eqb Ascii.eqb Bool.eqb orb].
    unfold bind, gui_do, modify, last_signal_0. cbn [fst snd]. rewrite Hs. reflexivity.
Qed.

Lemma X16_connection_button_witness :
  Enabled (button_device_connect
             (fst (fst (on_connection_state_change (K := Signals) "STATE_CONNECTING"
                          (gui_init, []))))) = false.
Proof.
  apply (proj1 (proj2 (X16_connection_button_disabled_when_idle (K := Signals)))
           "STATE_CONNECTING" gui_init []).
  now left.
Defined.

(** ** The buffer signal on the window as built *)

Section DeliveryFacts.
Context {K : Type} `{Ctx : Context K} `{Tr : Translation}.

Lemma on_buffer_update_without_widgets (v : Z) (g : Gui) :
  no_buffer_widgets g ->
  on_buffer_update v g =
  if gui_update g
  then (if v >? buffer_max g then set_buffer_max v g else g, Raised AttributeError)
  else (g, Returned tt).
Proof.
  intros [Ht _]. unfold on_buffer_update.
  destruct (gui_update g); [| reflexivity].
  destruct (v >? buffer_max g); cbn; now rewrite Ht.
Qed.

Lemma on_control_state_widgets (s : ThreadState) (g : Gui) :
  text_buffer_length (on_control_state s g) = text_buffer_length g /\
  gauge_buffer (on_control_state s g) = gauge_buffer g.
Proof.
  unfold on_control_state.
  destruct (match last_control_state g with
            | Some last => ThreadState_eqb last s
            | None => false
            end); [now split |].
  cbn [text_controller_status set_last_control_state].
  destruct (text_controller_status g); [destruct s |]; now split.
Qed.

Lemma on_connection_state_change_widgets (s : string) (w : World) :
  text_buffer_length (fst (fst (on_connection_state_change s w))) =
    text_buffer_length (fst w) /\
  gauge_buffer (fst (fst (on_connection_state_change s w))) = gauge_buffer (fst w).
Proof.
  destruct w as [g k]. unfold on_connection_state_change.
  repeat match goal with
         | |- context [if ?b then _ else _] => destruct b
         end;
    unfold bind, gui_do, modify, last_signal_0, ret; cbn;
    try (now split);
    destruct (last_signal "pipe;usb_status" k) as [[| x args] |]; now split.
Qed.

Lemma context_window (text : string) (w : World) :
  fst (fst (context text w)) = fst w.
Proof. unfold context. now destruct (context_call text (snd w)). Qed.

Lemma send_lines_window (lines : list string) :
  forall w : World, fst (fst (send_lines lines w)) = fst w.
Proof.
  induction lines as [| l rest IH]; intros w; [reflexivity |].
  cbn [send_lines]. unfold bind.
  pose proof (context_window l w) as Hc.
  destruct (context l w) as [w1 [[] | e]]; cbn [fst] in Hc |- *.
  - now rewrite IH.
  - exact Hc.
Qed.

Lemma try_pass_window (text : string) (w : World) :
  fst (fst (try_except (context text) AttributeError (ret tt) w)) = fst w.
Proof.
  unfold try_except. pose proof (context_window text w) as Hc.
  destruct (context text w) as [w1 [[] | e]]; cbn [fst] in Hc |- *; [exact Hc |].
  destruct (Exn_eqb e AttributeError); exact Hc.
Qed.

Lemma on_button_start_usb_widgets (w : World) :
  text_buffer_length (fst (fst (on_button_start_usb w))) = text_buffer_length (fst w) /\
  gauge_buffer (fst (fst (on_button_start_usb w))) = gauge_buffer (fst w).
Proof.
  destruct w as [g k]. unfold on_button_start_usb, bind, last_pipe_state. cbn [fst snd].
  destruct (last_signal "pipe;state" k) as [[| x args] |]; try (now split).
  all: match goal with
       | |- context [py_in ?s connect_states] => destruct (py_in s connect_states)
       end.
  all: try match goal with
           | |- context [py_in ?s disconnect_states] => destruct (py_in s disconnect_states)
           end.
  all: try (now split).
  all: try (rewrite context_window; now split).
  all: unfold try_except;
    match goal with
    | |- context [context ?t ?w] =>
        pose proof (context_window t w) as Hc; destruct (context t w) as [[g1 k1] [[] | e]]
    end; cbn [fst snd] in Hc |- *; subst g1; try (now split);
    destruct (Exn_eqb e ConnectionRefusedError); now split.
Qed.

Lemma deliver_no_buffer_widgets (d : Delivery) (w : World) :
  no_buffer_widgets (fst w) -> no_buffer_widgets (fst (fst (deliver d w))).
Proof.
  intros H. pose proof H as [Ht Hq]. unfold no_buffer_widgets.
  destruct d; cbn [deliver].
  - rewrite (on_buffer_update_without_widgets value (fst w) H).
    destruct (gui_update (fst w)); [| exact H].
    destruct (value >? buffer_max (fst w)); exact H.
  - cbn [fst]. destruct (on_control_state_widgets state (fst w)) as [-> ->]. exact H.
  - destruct (on_connection_state_change_widgets state w) as [-> ->]. exact H.
  - destruct (on_button_start_usb_widgets w) as [-> ->]. exact H.
  - unfold click_controller_control.
    destruct (Enabled (button_controller_control (fst w))); [| exact H].
    destruct (control_bindings (fst w)) as [| h hs]; [exact H |].
    destruct h as [| lines]; [exact H |].
    cbn [run_handler]. now rewrite send_lines_window.
  - unfold on_menu_pause. now rewrite try_pass_window.
  - unfold on_menu_stop. now rewrite try_pass_window.
  - exact H.
Qed.

Lemma deliveries_no_buffer_widgets (ds : list Delivery) :
  forall w : World, no_buffer_widgets (fst w) -> no_buffer_widgets (fst (deliveries ds w)).
Proof.
  induction ds as [| d rest IH]; intros w H; [exact H |].
  cbn [deliveries fold_left]. apply IH, deliver_no_buffer_widgets, H.
Qed.

End DeliveryFacts.

(** X17: [__init__] creates neither [text_buffer_length] nor
    [gauge_buffer], and none of the handlers above does: after any history of
    signals, clicks and menu entries on the window as built, both are still
    missing.  So every buffer signal delivered while the window is open ends
    in [AttributeError], after [buffer_max] was raised to a larger value and
    before anything is shown; once the window is closed the signal returns
    normally and changes nothing. *)
Theorem X17_buffer_update_never_reaches_the_gauge
    {K : Type} `{Ctx : Context K} `{Tr : Translation} :
  forall (ds : list Delivery) (k : K) (value : Z),
    let g := fst (deliveries ds (gui_init, k)) in
    text_buffer_length g = None /\
    gauge_buffer g = None /\
    on_buffer_update value g =
      (if gui_update g
       then (if value >? buffer_max g then set_buffer_max value g else g,
             Raised AttributeError)
       else (g, Returned tt)).
Proof.
  intros ds k value g.
  assert (H : no_buffer_widgets g).
  { apply deliveries_no_buffer_widgets. split; reflexivity. }
  destruct H as [Ht Hq]. split; [exact Ht |]. split; [exact Hq |].
  apply on_buffer_update_without_widgets. now split.
Qed.
